(** * SQL Coach: the lesson/session state machine of [sql_coach.py]

    A shallow embedding of the interactive tutor's command handler
    ([SQLCoach.handle_command]), of the helpers it calls
    ([get_lesson_by_id], [get_next_lesson_id], [show_current_lesson],
    [explain_execution_order], [normalize_sql], [load_progress]) and of the
    main loop ([SQLCoach.run]), followed by the properties of the
    specification that are about them.

    Conventions of the embedding.
    - A Python [str] is a Rocq [string]; a character is a code point in
      0..255 (Latin-1), on which [str.lower], [str.isspace] and the regular
      expression class [\s] are modelled exactly.  Every string of the
      curriculum and every command word is ASCII.
    - The object [self] is the record [SQLCoach]; a method takes the record and
      returns the updated one.  The SQLite database is an abstract value
      threaded through [execute_sql].
    - [print], [clear_screen] and [save_progress] are recorded, in order, as
      a list of [effect]s.  Colour codes and box drawing are left to the
      presentation layer: a payload keeps the data that is printed.
    - [save_progress] is taken to succeed, and the progress file to hold the
      four keys [load_progress] writes. *)

From Stdlib Require Import String Ascii List ZArith Lia Bool.
From stdpp Require Import base gmap strings list.
Import ListNotations.

(** ** Python string operations *)

Module PyStr.

(** The line feed, written [\n] in the source. *)
Definition nl : string := String (ascii_of_nat 10) EmptyString.

Definition between (lo hi n : nat) : bool := (lo <=? n)%nat && (n <=? hi)%nat.

(** [str.isspace] on one character, which is also the class [\s] of [re]
    for [str] patterns: TAB..CR, FS..US, space, NEL and NBSP. *)
Definition isspace (c : ascii) : bool :=
  let n := nat_of_ascii c in
  between 9 13 n || between 28 32 n || (n =? 133)%nat || (n =? 160)%nat.

(** [str.lower] on one character: A-Z and the Latin-1 capitals
    (all of U+00C0..U+00DE but the multiplication sign U+00D7). *)
Definition lower_char (c : ascii) : ascii :=
  let n := nat_of_ascii c in
  if between 65 90 n || between 192 214 n || between 216 222 n
  then ascii_of_nat (n + 32) else c.

(** [s.lower()] *)
Fixpoint lower (s : string) : string :=
  match s with
  | EmptyString => EmptyString
  | String c s' => String (lower_char c) (lower s')
  end.

(** [s.upper()] restricted to a-z; used only to build test inputs. *)
Definition upper_char (c : ascii) : ascii :=
  let n := nat_of_ascii c in
  if between 97 122 n then ascii_of_nat (n - 32) else c.

Fixpoint upper (s : string) : string :=
  match s with
  | EmptyString => EmptyString
  | String c s' => String (upper_char c) (upper s')
  end.

(** Removal of the leading characters that satisfy [p]. *)
Fixpoint lstrip_by (p : ascii -> bool) (s : string) : string :=
  match s with
  | EmptyString => EmptyString
  | String c s' => if p c then lstrip_by p s' else s
  end.

(** Removal of the trailing characters that satisfy [p]. *)
Fixpoint rstrip_by (p : ascii -> bool) (s : string) : string :=
  match s with
  | EmptyString => EmptyString
  | String c s' =>
      match rstrip_by p s' with
      | EmptyString => if p c then EmptyString else String c EmptyString
      | r => String c r
      end
  end.

(** [s.strip()] *)
Definition strip (s : string) : string := rstrip_by isspace (lstrip_by isspace s).

(** [s.rstrip(';')]: every trailing semicolon goes, not only one. *)
Definition rstrip_semicolons (s : string) : string :=
  rstrip_by (Ascii.eqb ";"%char) s.

(** [re.sub(r'\s+', ' ', s)]: each maximal run of whitespace becomes one
    space.  [in_run] tells that the previous character was whitespace. *)
Fixpoint sub_ws_runs (in_run : bool) (s : string) : string :=
  match s with
  | EmptyString => EmptyString
  | String c s' =>
      if isspace c
      then (if in_run then sub_ws_runs true s'
            else String " "%char (sub_ws_runs true s'))
      else String c (sub_ws_runs false s')
  end.

Definition collapse_whitespace (s : string) : string := sub_ws_runs false s.

(** [s.startswith(p)] *)
Fixpoint startswith (p s : string) : bool :=
  match p, s with
  | EmptyString, _ => true
  | String a p', String b s' => Ascii.eqb a b && startswith p' s'
  | String _ _, EmptyString => false
  end.

(** [needle in s] *)
Fixpoint contains (needle s : string) : bool :=
  startswith needle s ||
  match s with
  | EmptyString => false
  | String _ s' => contains needle s'
  end.

(** [s[n:]] *)
Fixpoint drop (n : nat) (s : string) : string :=
  match n, s with
  | O, _ => s
  | S _, EmptyString => EmptyString
  | S n', String _ s' => drop n' s'
  end.

(** Truth value of a string in a condition: non-empty. *)
Definition truthy (s : string) : bool := negb (s =? EmptyString)%string.

End PyStr.
Import PyStr.

(** ** The curriculum store *)

(** A lesson dictionary of [CURRICULUM]; the keys [id] and [title] are the
    fields [lesson_id] and [lesson_title].  The [concept] text is only ever
    handed to [print_box]; it is not part of the model.  [follow_up] is read
    with [lesson.get('follow_up', ...)], hence optional. *)
Record Lesson := {
  lesson_id : string;
  lesson_title : string;
  challenge : string;
  hints : list string;
  solution_steps : list string;
  answer : string;
  follow_up : option string
}.

Record Phase := {
  phase_id : Z;
  phase_title : string;
  description : string;
  lessons : list Lesson
}.

Definition lesson_1_1 : Lesson :=
  {| lesson_id := "1.1";
     lesson_title := "SELECT & FROM - Your Starting Point";
     challenge := "Show me all campaign names and their bidding strategies from the campaigns table.";
     hints :=
       [ "You need SELECT and FROM - two keywords";
         "The columns you want are: campaign_name, bidding_strategy";
         "The table is: campaigns" ];
     solution_steps :=
       [ "SELECT";
         "SELECT campaign_name, bidding_strategy";
         "SELECT campaign_name, bidding_strategy FROM campaigns;" ];
     answer :=
       "SELECT campaign_name, bidding_strategy FROM campaigns;";
     follow_up := Some "Try: Show only SEARCH type campaigns (you'll need WHERE)" |}.

Definition lesson_1_2 : Lesson :=
  {| lesson_id := "1.2";
     lesson_title := "WHERE - Filtering Rows";
     challenge := "Find all ad performance rows where device is 'MOBILE' and impressions are greater than 20000.";
     hints :=
       [ "Start with SELECT * FROM ad_performance_daily";
         "Add WHERE with two conditions";
         "Use AND to combine: device = 'MOBILE' AND impressions > 20000";
         "String values need quotes: 'MOBILE'" ];
     solution_steps :=
       [ "SELECT * FROM ad_performance_daily";
         "SELECT * FROM ad_performance_daily WHERE device = 'MOBILE'";
         "SELECT * FROM ad_performance_daily WHERE device = 'MOBILE' AND impressions > 20000;" ];
     answer :=
       "SELECT * FROM ad_performance_daily WHERE device = 'MOBILE' AND impressions > 20000;";
     follow_up := Some "Try: Find search terms with clicks but ZERO conversions (wasted spend)" |}.

Definition lesson_1_3 : Lesson :=
  {| lesson_id := "1.3";
     lesson_title := "ORDER BY & LIMIT";
     challenge := "Show the top 5 ad performance rows by clicks (highest first). Include date, campaign_id, clicks, and cost_micros.";
     hints :=
       [ "SELECT specific columns, not *";
         "ORDER BY clicks DESC for highest first";
         "Add LIMIT 5 at the end" ];
     solution_steps :=
       [ "SELECT date, campaign_id, clicks, cost_micros";
         "SELECT date, campaign_id, clicks, cost_micros FROM ad_performance_daily";
         "SELECT date, campaign_id, clicks, cost_micros FROM ad_performance_daily ORDER BY clicks DESC";
         "SELECT date, campaign_id, clicks, cost_micros FROM ad_performance_daily ORDER BY clicks DESC LIMIT 5;" ];
     answer :=
       "SELECT date, campaign_id, clicks, cost_micros FROM ad_performance_daily ORDER BY clicks DESC LIMIT 5;";
     follow_up := Some "Try converting cost_micros to dollars (divide by 1000000) and alias it" |}.

Definition lesson_1_4 : Lesson :=
  {| lesson_id := "1.4";
     lesson_title := "Execution Order - The Key Insight";
     challenge := "Calculate cost in USD (cost_micros / 1000000) as cost_usd, then ORDER BY cost_usd descending. Limit to 5 rows.";
     hints :=
       [ "Create an alias: cost_micros / 1000000.0 AS cost_usd";
         "You can use the alias in ORDER BY";
         "Include date and campaign_id for context" ];
     solution_steps :=
       [ "SELECT date, campaign_id, cost_micros / 1000000.0 AS cost_usd";
         "SELECT date, campaign_id, cost_micros / 1000000.0 AS cost_usd FROM ad_performance_daily";
         "SELECT date, campaign_id, cost_micros / 1000000.0 AS cost_usd FROM ad_performance_daily ORDER BY cost_usd DESC";
         "SELECT date, campaign_id, cost_micros / 1000000.0 AS cost_usd FROM ad_performance_daily ORDER BY cost_usd DESC LIMIT 5;" ];
     answer :=
       "SELECT date, campaign_id, cost_micros / 1000000.0 AS cost_usd FROM ad_performance_daily ORDER BY cost_usd DESC LIMIT 5;";
     follow_up := Some "Notice you CAN use cost_usd in ORDER BY. Try using it in WHERE and see why it fails." |}.

Definition phase_1 : Phase :=
  {| phase_id := 1;
     phase_title := "Foundations";
     description := "SELECT, FROM, WHERE, ORDER BY, LIMIT - the building blocks";
     lessons := [lesson_1_1; lesson_1_2; lesson_1_3; lesson_1_4] |}.

Definition lesson_2_1 : Lesson :=
  {| lesson_id := "2.1";
     lesson_title := "Aggregate Functions";
     challenge := "Calculate the total impressions, total clicks, and total cost in USD across ALL rows in ad_performance_daily.";
     hints :=
       [ "Use SUM() for each metric";
         "No GROUP BY needed - you want one total across everything";
         "Divide cost_micros by 1000000.0 for USD";
         "Use AS to create readable column names" ];
     solution_steps :=
       [ "SELECT SUM(impressions)";
         "SELECT SUM(impressions) AS total_impressions, SUM(clicks) AS total_clicks";
         "SELECT SUM(impressions) AS total_impressions, SUM(clicks) AS total_clicks, SUM(cost_micros) / 1000000.0 AS total_cost_usd";
         "SELECT SUM(impressions) AS total_impressions, SUM(clicks) AS total_clicks, SUM(cost_micros) / 1000000.0 AS total_cost_usd FROM ad_performance_daily;" ];
     answer :=
       "SELECT SUM(impressions) AS total_impressions, SUM(clicks) AS total_clicks, SUM(cost_micros) / 1000000.0 AS total_cost_usd FROM ad_performance_daily;";
     follow_up := Some "Add AVG(clicks) as avg_clicks to see average per row" |}.

Definition lesson_2_2 : Lesson :=
  {| lesson_id := "2.2";
     lesson_title := "GROUP BY - Aggregating by Category";
     challenge := "For each campaign_id, show the total impressions, total clicks, and total cost in USD.";
     hints :=
       [ "SELECT campaign_id and your aggregates";
         "Use SUM() for each metric";
         "GROUP BY campaign_id at the end" ];
     solution_steps :=
       [ "SELECT campaign_id";
         "SELECT campaign_id, SUM(impressions) AS total_impressions";
         "SELECT campaign_id, SUM(impressions) AS total_impressions, SUM(clicks) AS total_clicks, SUM(cost_micros) / 1000000.0 AS total_cost_usd";
         "SELECT campaign_id, SUM(impressions) AS total_impressions, SUM(clicks) AS total_clicks, SUM(cost_micros) / 1000000.0 AS total_cost_usd FROM ad_performance_daily";
         "SELECT campaign_id, SUM(impressions) AS total_impressions, SUM(clicks) AS total_clicks, SUM(cost_micros) / 1000000.0 AS total_cost_usd FROM ad_performance_daily GROUP BY campaign_id;" ];
     answer :=
       "SELECT campaign_id, SUM(impressions) AS total_impressions, SUM(clicks) AS total_clicks, SUM(cost_micros) / 1000000.0 AS total_cost_usd FROM ad_performance_daily GROUP BY campaign_id;";
     follow_up := Some "Try grouping by campaign_id AND device to see breakdown by device" |}.

Definition lesson_2_3 : Lesson :=
  {| lesson_id := "2.3";
     lesson_title := "HAVING - Filtering After Aggregation";
     challenge := "Show campaigns where total clicks exceed 2000. Display campaign_id, total clicks, and total cost in USD.";
     hints :=
       [ "First write a GROUP BY query for campaign metrics";
         "Add HAVING after GROUP BY";
         "HAVING SUM(clicks) > 2000" ];
     solution_steps :=
       [ "SELECT campaign_id, SUM(clicks) AS total_clicks, SUM(cost_micros) / 1000000.0 AS total_cost_usd FROM ad_performance_daily GROUP BY campaign_id";
         "SELECT campaign_id, SUM(clicks) AS total_clicks, SUM(cost_micros) / 1000000.0 AS total_cost_usd FROM ad_performance_daily GROUP BY campaign_id HAVING SUM(clicks) > 2000;" ];
     answer :=
       "SELECT campaign_id, SUM(clicks) AS total_clicks, SUM(cost_micros) / 1000000.0 AS total_cost_usd FROM ad_performance_daily GROUP BY campaign_id HAVING SUM(clicks) > 2000;";
     follow_up := Some "Add WHERE device = 'MOBILE' to filter rows BEFORE grouping, keep HAVING" |}.

Definition phase_2 : Phase :=
  {| phase_id := 2;
     phase_title := "Aggregation & GROUP BY";
     description := "COUNT, SUM, AVG, GROUP BY, HAVING - analyzing data at scale";
     lessons := [lesson_2_1; lesson_2_2; lesson_2_3] |}.

Definition lesson_3_1 : Lesson :=
  {| lesson_id := "3.1";
     lesson_title := "INNER JOIN - Matching Rows Only";
     challenge := "Join campaigns to ad_performance_daily to show campaign_name, date, clicks, and cost_micros for each performance row.";
     hints :=
       [ "Start with FROM ad_performance_daily p";
         "JOIN campaigns c ON matching campaign_id";
         "Select: c.campaign_name, p.date, p.clicks, p.cost_micros" ];
     solution_steps :=
       [ "SELECT c.campaign_name, p.date, p.clicks, p.cost_micros";
         "SELECT c.campaign_name, p.date, p.clicks, p.cost_micros FROM ad_performance_daily p";
         "SELECT c.campaign_name, p.date, p.clicks, p.cost_micros FROM ad_performance_daily p INNER JOIN campaigns c ON p.campaign_id = c.campaign_id;" ];
     answer :=
       "SELECT c.campaign_name, p.date, p.clicks, p.cost_micros FROM ad_performance_daily p INNER JOIN campaigns c ON p.campaign_id = c.campaign_id;";
     follow_up := Some "Add GROUP BY c.campaign_name and aggregate to see totals per campaign name" |}.

Definition lesson_3_2 : Lesson :=
  {| lesson_id := "3.2";
     lesson_title := "LEFT JOIN - Keep All Left Rows";
     challenge := "Show ALL campaigns (including those with no performance data) with their total clicks. Use COALESCE to show 0 instead of NULL.";
     hints :=
       [ "Start FROM campaigns (left table keeps all rows)";
         "LEFT JOIN ad_performance_daily";
         "Use COALESCE(SUM(p.clicks), 0) to replace NULL with 0";
         "GROUP BY c.campaign_name" ];
     solution_steps :=
       [ "SELECT c.campaign_name FROM campaigns c";
         "SELECT c.campaign_name FROM campaigns c LEFT JOIN ad_performance_daily p ON c.campaign_id = p.campaign_id";
         "SELECT c.campaign_name, COALESCE(SUM(p.clicks), 0) AS total_clicks FROM campaigns c LEFT JOIN ad_performance_daily p ON c.campaign_id = p.campaign_id";
         "SELECT c.campaign_name, COALESCE(SUM(p.clicks), 0) AS total_clicks FROM campaigns c LEFT JOIN ad_performance_daily p ON c.campaign_id = p.campaign_id GROUP BY c.campaign_name;" ];
     answer :=
       "SELECT c.campaign_name, COALESCE(SUM(p.clicks), 0) AS total_clicks FROM campaigns c LEFT JOIN ad_performance_daily p ON c.campaign_id = p.campaign_id GROUP BY c.campaign_name;";
     follow_up := Some "Which campaigns show 0? Why does LEFT JOIN matter vs INNER?" |}.

Definition lesson_3_3 : Lesson :=
  {| lesson_id := "3.3";
     lesson_title := "Multi-Table JOINs";
     challenge := "Write a 3-table join: Show campaign_name, ad_group_name, total impressions, total clicks, and total conversions for each ad group.";
     hints :=
       [ "FROM ad_performance_daily p (fact table)";
         "JOIN campaigns c ON campaign_id";
         "JOIN ad_groups ag ON ad_group_id";
         "GROUP BY c.campaign_name, ag.ad_group_name";
         "SUM the metrics" ];
     solution_steps :=
       [ "SELECT c.campaign_name, ag.ad_group_name";
         "SELECT c.campaign_name, ag.ad_group_name, SUM(p.impressions) AS total_impr, SUM(p.clicks) AS total_clicks, SUM(p.conversions) AS total_conv";
         "SELECT c.campaign_name, ag.ad_group_name, SUM(p.impressions) AS total_impr, SUM(p.clicks) AS total_clicks, SUM(p.conversions) AS total_conv FROM ad_performance_daily p";
         "SELECT c.campaign_name, ag.ad_group_name, SUM(p.impressions) AS total_impr, SUM(p.clicks) AS total_clicks, SUM(p.conversions) AS total_conv FROM ad_performance_daily p JOIN campaigns c ON p.campaign_id = c.campaign_id JOIN ad_groups ag ON p.ad_group_id = ag.ad_group_id";
         "SELECT c.campaign_name, ag.ad_group_name, SUM(p.impressions) AS total_impr, SUM(p.clicks) AS total_clicks, SUM(p.conversions) AS total_conv FROM ad_performance_daily p JOIN campaigns c ON p.campaign_id = c.campaign_id JOIN ad_groups ag ON p.ad_group_id = ag.ad_group_id GROUP BY c.campaign_name, ag.ad_group_name;" ];
     answer :=
       "SELECT c.campaign_name, ag.ad_group_name, SUM(p.impressions) AS total_impr, SUM(p.clicks) AS total_clicks, SUM(p.conversions) AS total_conv FROM ad_performance_daily p JOIN campaigns c ON p.campaign_id = c.campaign_id JOIN ad_groups ag ON p.ad_group_id = ag.ad_group_id GROUP BY c.campaign_name, ag.ad_group_name;";
     follow_up := Some "Add CTR column: SUM(clicks) * 100.0 / SUM(impressions) AS ctr" |}.

Definition phase_3 : Phase :=
  {| phase_id := 3;
     phase_title := "JOINs";
     description := "INNER, LEFT, multi-table - combining data across tables";
     lessons := [lesson_3_1; lesson_3_2; lesson_3_3] |}.

Definition lesson_4_1 : Lesson :=
  {| lesson_id := "4.1";
     lesson_title := "Window Functions - The TSC III Separator";
     challenge := "For each row in ad_performance_daily, rank by clicks within each campaign_id (highest first). Show campaign_id, date, device, clicks, and rank.";
     hints :=
       [ "Use RANK() OVER (...)";
         "PARTITION BY campaign_id";
         "ORDER BY clicks DESC";
         "Give the rank an alias like click_rank" ];
     solution_steps :=
       [ "SELECT campaign_id, date, device, clicks";
         "SELECT campaign_id, date, device, clicks, RANK() OVER (...) AS click_rank";
         "SELECT campaign_id, date, device, clicks, RANK() OVER (PARTITION BY campaign_id ORDER BY clicks DESC) AS click_rank";
         "SELECT campaign_id, date, device, clicks, RANK() OVER (PARTITION BY campaign_id ORDER BY clicks DESC) AS click_rank FROM ad_performance_daily;" ];
     answer :=
       "SELECT campaign_id, date, device, clicks, RANK() OVER (PARTITION BY campaign_id ORDER BY clicks DESC) AS click_rank FROM ad_performance_daily;";
     follow_up := Some "Change RANK to ROW_NUMBER and DENSE_RANK - observe how ties differ" |}.

Definition lesson_4_2 : Lesson :=
  {| lesson_id := "4.2";
     lesson_title := "LAG/LEAD & Running Totals";
     challenge := "For campaign_id = 1, show date, daily total clicks, and previous day's clicks using LAG. First aggregate by date, then apply LAG.";
     hints :=
       [ "Use a CTE or subquery to first get daily totals";
         "Filter WHERE campaign_id = 1";
         "GROUP BY date to get daily totals";
         "Then apply LAG(daily_clicks, 1) OVER (ORDER BY date)" ];
     solution_steps :=
       [ "First get daily totals: SELECT date, SUM(clicks) AS daily_clicks FROM ad_performance_daily WHERE campaign_id = 1 GROUP BY date";
         "Wrap in CTE: WITH daily AS (SELECT date, SUM(clicks) AS daily_clicks FROM ad_performance_daily WHERE campaign_id = 1 GROUP BY date)";
         "Add LAG: WITH daily AS (...) SELECT date, daily_clicks, LAG(daily_clicks, 1) OVER (ORDER BY date) AS prev_day_clicks FROM daily";
         "WITH daily AS (SELECT date, SUM(clicks) AS daily_clicks FROM ad_performance_daily WHERE campaign_id = 1 GROUP BY date) SELECT date, daily_clicks, LAG(daily_clicks, 1) OVER (ORDER BY date) AS prev_day_clicks FROM daily ORDER BY date;" ];
     answer :=
       "WITH daily AS (SELECT date, SUM(clicks) AS daily_clicks FROM ad_performance_daily WHERE campaign_id = 1 GROUP BY date) SELECT date, daily_clicks, LAG(daily_clicks, 1) OVER (ORDER BY date) AS prev_day_clicks FROM daily ORDER BY date;";
     follow_up := Some "Add day-over-day change: daily_clicks - LAG(...)" |}.

Definition lesson_4_3 : Lesson :=
  {| lesson_id := "4.3";
     lesson_title := "CTEs - Clean, Readable Queries";
     challenge := "Use a CTE to calculate total spend and conversions per campaign, then calculate cost per conversion (CPA). Join to campaigns for the name.";
     hints :=
       [ "Create CTE: WITH campaign_metrics AS (SELECT campaign_id, SUM(cost_micros)/1000000.0 AS total_cost_usd, SUM(conversions) AS total_conversions FROM ad_performance_daily GROUP BY campaign_id)";
         "In main query, JOIN to campaigns";
         "Calculate CPA: total_cost_usd / total_conversions";
         "Use CASE WHEN to avoid divide by zero" ];
     solution_steps :=
       [ "WITH campaign_metrics AS (SELECT campaign_id, SUM(cost_micros) / 1000000.0 AS total_cost_usd, SUM(conversions) AS total_conversions FROM ad_performance_daily GROUP BY campaign_id)";
         "WITH campaign_metrics AS (...) SELECT c.campaign_name, cm.total_cost_usd, cm.total_conversions FROM campaign_metrics cm JOIN campaigns c ON cm.campaign_id = c.campaign_id";
         "WITH campaign_metrics AS (SELECT campaign_id, SUM(cost_micros) / 1000000.0 AS total_cost_usd, SUM(conversions) AS total_conversions FROM ad_performance_daily GROUP BY campaign_id) SELECT c.campaign_name, cm.total_cost_usd, cm.total_conversions, CASE WHEN cm.total_conversions > 0 THEN ROUND(cm.total_cost_usd / cm.total_conversions, 2) ELSE NULL END AS cpa FROM campaign_metrics cm JOIN campaigns c ON cm.campaign_id = c.campaign_id ORDER BY cpa;" ];
     answer :=
       "WITH campaign_metrics AS (SELECT campaign_id, SUM(cost_micros) / 1000000.0 AS total_cost_usd, SUM(conversions) AS total_conversions FROM ad_performance_daily GROUP BY campaign_id) SELECT c.campaign_name, cm.total_cost_usd, cm.total_conversions, CASE WHEN cm.total_conversions > 0 THEN ROUND(cm.total_cost_usd / cm.total_conversions, 2) ELSE NULL END AS cpa FROM campaign_metrics cm JOIN campaigns c ON cm.campaign_id = c.campaign_id ORDER BY cpa;";
     follow_up := Some "Add a second CTE for search term waste (terms with 0 conversions)" |}.

Definition phase_4 : Phase :=
  {| phase_id := 4;
     phase_title := "Window Functions & CTEs";
     description := "ROW_NUMBER, RANK, LAG/LEAD, WITH clauses - advanced patterns";
     lessons := [lesson_4_1; lesson_4_2; lesson_4_3] |}.

Definition CURRICULUM : list Phase := [phase_1; phase_2; phase_3; phase_4].

(** The lessons in declaration order: phase order, then order in the phase. *)
Definition all_lessons_of (phases : list Phase) : list Lesson :=
  flat_map lessons phases.

Definition all_lessons : list Lesson := all_lessons_of CURRICULUM.

(** [get_lesson_by_id]: the first lesson with that id and its phase;
    [None] stands for the pair [(None, None)]. *)
Fixpoint find_lesson (lesson_id0 : string) (ls : list Lesson) : option Lesson :=
  match ls with
  | [] => None
  | l :: ls' => if (lesson_id l =? lesson_id0)%string then Some l else find_lesson lesson_id0 ls'
  end.

Fixpoint get_lesson_in (phases : list Phase) (lesson_id0 : string) : option (Lesson * Phase) :=
  match phases with
  | [] => None
  | p :: ps =>
      match find_lesson lesson_id0 (lessons p) with
      | Some l => Some (l, p)
      | None => get_lesson_in ps lesson_id0
      end
  end.

Definition get_lesson_by_id (lesson_id0 : string) : option (Lesson * Phase) :=
  get_lesson_in CURRICULUM lesson_id0.

(** [list.index]: position of the first occurrence; [None] for [ValueError]. *)
Fixpoint index_of (x : string) (l : list string) : option nat :=
  match l with
  | [] => None
  | y :: l' => if (y =? x)%string then Some 0 else option_map S (index_of x l')
  end.

(** [get_next_lesson_id] *)
Definition next_lesson_id_in (phases : list Phase) (current_id : string) : option string :=
  let all_ids := map lesson_id (all_lessons_of phases) in
  match index_of current_id all_ids with
  | Some idx => if (idx + 1 <? length all_ids)%nat then nth_error all_ids (idx + 1) else None
  | None => None
  end.

Definition get_next_lesson_id (current_id : string) : option string :=
  next_lesson_id_in CURRICULUM current_id.

(** [get_total_lessons] *)
Definition get_total_lessons : nat :=
  list_sum (map (fun p => length (lessons p)) CURRICULUM).

(** ** Progress *)

(** The dictionary kept in [progress.json]. *)
Record Progress := {
  current_lesson : string;
  completed_lessons : list string;
  hint_counts : gmap string Z;
  started_at : string
}.

(** [load_progress]: the record of the file when it exists, else the
    defaults.  [now] is [datetime.now().isoformat()]. *)
Definition load_progress (file : option Progress) (now : string) : Progress :=
  match file with
  | Some p => p
  | None => {| current_lesson := "1.1"; completed_lessons := [];
               hint_counts := ∅; started_at := now |}
  end.

Definition set_current_lesson (p : Progress) (lesson_id0 : string) : Progress :=
  {| current_lesson := lesson_id0; completed_lessons := completed_lessons p;
     hint_counts := hint_counts p; started_at := started_at p |}.

Definition set_completed_lessons (p : Progress) (done : list string) : Progress :=
  {| current_lesson := current_lesson p; completed_lessons := done;
     hint_counts := hint_counts p; started_at := started_at p |}.

(** [x in l] on a list of strings *)
Definition mem (x : string) (l : list string) : bool := existsb (String.eqb x) l.

(** ** Answer normalisation and the execution-order explanation *)

(** [SQLCoach.normalize_sql]:
    [re.sub(r'\s+', ' ', sql.lower().strip().rstrip(';'))] *)
Definition normalize_sql (sql : string) : string :=
  collapse_whitespace (rstrip_semicolons (strip (lower sql))).

(** The clauses [explain_execution_order] knows, named as it prints them. *)
Inductive clause :=
| CTE | FROM | JOIN | WHERE | GROUP_BY | HAVING | SELECT | DISTINCT | ORDER_BY | LIMIT.

(** One step of the explanation: [if has_x: steps.append(f"{step_num}. X ...");
    step_num += 1]. *)
Definition add_step (has : bool) (c : clause) (acc : list (nat * clause) * nat)
  : list (nat * clause) * nat :=
  let '(steps, step_num) := acc in
  if has then (steps ++ [(step_num, c)], step_num + 1) else (steps, step_num).

(** [explain_execution_order]: the numbered steps it prints. *)
Definition explain_execution_order (sql : string) : list (nat * clause) :=
  let sql_lower := lower sql in
  let has_cte := contains "with " sql_lower in
  let has_from := contains "from " sql_lower in
  let has_join := contains "join " sql_lower in
  let has_where := contains "where " sql_lower in
  let has_group := contains "group by" sql_lower in
  let has_having := contains "having " sql_lower in
  let has_select := contains "select " sql_lower in
  let has_distinct := contains "distinct" sql_lower in
  let has_order := contains "order by" sql_lower in
  let has_limit := contains "limit " sql_lower in
  let acc := ([], 1) in
  let acc := add_step has_cte CTE acc in
  let acc := add_step has_from FROM acc in
  let acc := add_step has_join JOIN acc in
  let acc := add_step has_where WHERE acc in
  let acc := add_step has_group GROUP_BY acc in
  let acc := add_step has_having HAVING acc in
  let acc := add_step has_select SELECT acc in
  let acc := add_step has_distinct DISTINCT acc in
  let acc := add_step has_order ORDER_BY acc in
  let acc := add_step has_limit LIMIT acc in
  fst acc.

(** ** Commands *)

(** The branch of [handle_command] that a stripped input line takes. *)
Inductive command :=
| CEmpty                      (* if not cmd *)
| CRun (sql : string)         (* run <sql> *)
| CHint | CNext | CAnswer | CExplain | CSchema | CTables | CSkip
| CLesson (id : string)       (* lesson <id> *)
| CProgress | CReset | CHelp | CClear | CQuit
| CSql (cmd : string)         (* unknown command that looks like SQL *)
| CUnknown.

(** [any(kw in cmd_lower for kw in ["select", "with", "insert", "update", "delete"])] *)
Definition looks_like_sql (cmd_lower : string) : bool :=
  existsb (fun kw => contains kw cmd_lower) ["select"; "with"; "insert"; "update"; "delete"].

(** The chain of tests of [handle_command], in its order, on the stripped
    line [cmd]. *)
Definition classify (cmd : string) : command :=
  if negb (truthy cmd) then CEmpty else
  let cmd_lower := lower cmd in
  if startswith "run " cmd_lower then CRun (strip (drop 4 cmd)) else
  if (cmd_lower =? "hint")%string || (cmd_lower =? "stuck")%string || (cmd_lower =? "help me")%string then CHint else
  if (cmd_lower =? "next")%string then CNext else
  if (cmd_lower =? "answer")%string || (cmd_lower =? "solution")%string then CAnswer else
  if (cmd_lower =? "explain")%string then CExplain else
  if (cmd_lower =? "schema")%string then CSchema else
  if (cmd_lower =? "tables")%string then CTables else
  if (cmd_lower =? "skip")%string then CSkip else
  if startswith "lesson " cmd_lower then CLesson (strip (drop 7 cmd)) else
  if (cmd_lower =? "progress")%string then CProgress else
  if (cmd_lower =? "reset")%string then CReset else
  if (cmd_lower =? "help")%string || (cmd_lower =? "?")%string then CHelp else
  if (cmd_lower =? "clear")%string || (cmd_lower =? "cls")%string then CClear else
  if mem cmd_lower ["quit"; "exit"; "q"] then CQuit else
  if looks_like_sql cmd_lower then CSql cmd else
  CUnknown.

(** ** The coach *)

(** The attributes of a [SQLCoach] object. *)
Record SQLCoach := {
  progress : Progress;
  current_hint : nat;
  current_step : nat;
  last_query : option string
}.

(** [SQLCoach.__init__] *)
Definition init (file : option Progress) (now : string) : SQLCoach :=
  {| progress := load_progress file now; current_hint := 0; current_step := 0;
     last_query := None |}.

Definition set_progress (self : SQLCoach) (p : Progress) : SQLCoach :=
  {| progress := p; current_hint := current_hint self;
     current_step := current_step self; last_query := last_query self |}.

Definition set_current_hint (self : SQLCoach) (n : nat) : SQLCoach :=
  {| progress := progress self; current_hint := n;
     current_step := current_step self; last_query := last_query self |}.

Definition set_current_step (self : SQLCoach) (n : nat) : SQLCoach :=
  {| progress := progress self; current_hint := current_hint self;
     current_step := n; last_query := last_query self |}.

Definition set_last_query (self : SQLCoach) (q : option string) : SQLCoach :=
  {| progress := progress self; current_hint := current_hint self;
     current_step := current_step self; last_query := q |}.

(** What [print_success_box] is called with. *)
Inductive success_message :=
| Matched (follow_up : string)
    (* "Perfect! That matches the expected solution!" and the follow-up *)
| AllCompleted.
    (* "Congratulations! You've completed all lessons!" *)

Section Coach.

(** A row of a result set, and the database file behind [execute_sql]. *)
Variable Row : Type.
Variable DB : Type.

(** What [execute_sql] returns: [(columns, rows, None)] or
    [(None, None, str(e))]. *)
Inductive exec_result :=
| ExecOk (columns : list string) (rows : list Row)
| ExecErr (error : string).

Definition columns_of (r : exec_result) : option (list string) :=
  match r with ExecOk c _ => Some c | ExecErr _ => None end.

Definition rows_of (r : exec_result) : option (list Row) :=
  match r with ExecOk _ rows => Some rows | ExecErr _ => None end.

Definition error_of (r : exec_result) : option string :=
  match r with ExecOk _ _ => None | ExecErr e => Some e end.

(** [execute_sql]: the query runs against the database, which it may
    change. *)
Variable execute_sql : string -> DB -> exec_result * DB.

(** What is printed, without colours and frames. *)
Inductive payload :=
| Banner                                               (* print_banner *)
| Welcome                                              (* greeting of run *)
| ErrorBox (message : string)                          (* print_error_box *)
| SuccessBox (message : success_message)               (* print_success_box *)
| HintBox (hint_num total_hints : nat) (hint_text : string)     (* print_hint_box *)
| NextStepBox (step_num total_steps : nat) (step_text : string) (* print_next_step_box *)
| AnswerBox (answer_text : string)                     (* print_answer_box *)
| Table (columns : option (list string)) (rows : option (list Row)) (* print_table *)
| ProgressBar (current total : nat)                    (* print_progress_bar *)
| LessonView (p : Phase) (l : Lesson)                  (* header, concept, challenge *)
| ExecutionOrder (steps : list (nat * clause))         (* explain_execution_order *)
| Schema                                               (* print_schema *)
| TableList                                            (* the tables listing *)
| HelpText                                             (* the commands listing *)
| ProgressReport (completed : list string) (current : string)
| Line (text : string).                                (* a plain print *)

Inductive effect :=
| ClearScreen                       (* clear_screen() *)
| Print (p : payload)
| SaveProgress (p : Progress).      (* save_progress(self.progress) *)

(** [show_current_lesson] *)
Definition show_current_lesson (self : SQLCoach) : SQLCoach * list effect :=
  match get_lesson_by_id (current_lesson (progress self)) with
  | None => (self, [Print (ErrorBox "Lesson not found!")])
  | Some (lesson, phase) =>
      let self := set_current_hint self 0 in
      let self := set_current_step self 0 in
      let completed := length (completed_lessons (progress self)) in
      let total := get_total_lessons in
      (self, [Print (ProgressBar completed total); Print (LessonView phase lesson)])
  end.

(** What one call of [handle_command] leaves behind; [continue] is its
    return value. *)
Record outcome := {
  continue : bool;
  coach : SQLCoach;
  database : DB;
  effects : list effect
}.

Definition proceed (self : SQLCoach) (db : DB) (out : list effect) : outcome :=
  {| continue := true; coach := self; database := db; effects := out |}.

(** [if error:] on the third component of the result. *)
Definition is_error (r : exec_result) : bool :=
  match error_of r with Some e => truthy e | None => false end.

(** [handle_command] *)
Definition handle_command (line : string) (self : SQLCoach) (db : DB) : outcome :=
  let cmd := strip line in
  let found := get_lesson_by_id (current_lesson (progress self)) in
  match classify cmd with
  | CEmpty => proceed self db []
  | CRun sql =>
      let self := set_last_query self (Some sql) in
      let '(res, db) := execute_sql sql db in
      if is_error res then
        proceed self db [Print (ErrorBox ("SQL Error:" +:+ nl +:+ default EmptyString (error_of res)))]
      else
        let matched :=
          match found with
          | Some (lesson, _) =>
              if (normalize_sql sql =? normalize_sql (answer lesson))%string
              then [Print (SuccessBox (Matched (default "Try the next lesson!" (follow_up lesson))))]
              else []
          | None => []
          end in
        proceed self db
          ([Print (Line "Query executed successfully!");
            Print (Table (columns_of res) (rows_of res))] ++ matched)
  | CHint =>
      match found with
      | None => proceed self db []
      | Some (lesson, _) =>
          let hs := hints lesson in
          if (current_hint self <? length hs)%nat then
            proceed (set_current_hint self (current_hint self + 1)) db
              [Print (HintBox (current_hint self + 1) (length hs) (nth (current_hint self) hs EmptyString))]
          else
            proceed self db [Print (Line "No more hints! Type 'answer' to see the solution.")]
      end
  | CNext =>
      match found with
      | None => proceed self db []
      | Some (lesson, _) =>
          let steps := solution_steps lesson in
          if (current_step self <? length steps)%nat then
            proceed (set_current_step self (current_step self + 1)) db
              [Print (NextStepBox (current_step self + 1) (length steps) (nth (current_step self) steps EmptyString))]
          else
            proceed self db
              [Print (Line "No more steps! Here's the full solution:");
               Print (AnswerBox (answer lesson))]
      end
  | CAnswer =>
      match found with
      | Some (lesson, _) => proceed self db [Print (AnswerBox (answer lesson))]
      | None => proceed self db []
      end
  | CExplain =>
      let ask := proceed self db
        [Print (Line "Run a query first, then type 'explain' to see execution order.")] in
      match last_query self with
      | Some q =>
          if truthy q then proceed self db [Print (ExecutionOrder (explain_execution_order q))]
          else ask
      | None => ask
      end
  | CSchema => proceed self db [Print Schema]
  | CTables => proceed self db [Print TableList]
  | CSkip =>
      match found with
      | Some (lesson, _) =>
          let done := completed_lessons (progress self) in
          let done := if mem (lesson_id lesson) done then done else done ++ [lesson_id lesson] in
          let self := set_progress self (set_completed_lessons (progress self) done) in
          let finished := proceed self db [Print (SuccessBox AllCompleted)] in
          match get_next_lesson_id (lesson_id lesson) with
          | Some next_id =>
              if truthy next_id then
                let self := set_progress self (set_current_lesson (progress self) next_id) in
                let '(shown, out) := show_current_lesson self in
                proceed shown db ([SaveProgress (progress self); ClearScreen; Print Banner] ++ out)
              else finished
          | None => finished
          end
      | None => proceed self db []
      end
  | CLesson lesson_id0 =>
      match get_lesson_by_id lesson_id0 with
      | Some _ =>
          let self := set_progress self (set_current_lesson (progress self) lesson_id0) in
          let '(shown, out) := show_current_lesson self in
          proceed shown db ([SaveProgress (progress self); ClearScreen; Print Banner] ++ out)
      | None =>
          proceed self db
            [Print (ErrorBox ("Lesson '" +:+ lesson_id0 +:+ "' not found. Use format like '1.2' or '3.1'"))]
      end
  | CProgress =>
      proceed self db
        [Print (Line "Your Progress:");
         Print (ProgressBar (length (completed_lessons (progress self))) get_total_lessons);
         Print (ProgressReport (completed_lessons (progress self)) (current_lesson (progress self)))]
  | CReset =>
      let self := set_current_hint self 0 in
      let self := set_current_step self 0 in
      proceed self db [Print (Line "Lesson progress reset. Hints and steps start from beginning.")]
  | CHelp => proceed self db [Print HelpText]
  | CClear =>
      let '(shown, out) := show_current_lesson self in
      proceed shown db ([ClearScreen; Print Banner] ++ out)
  | CQuit =>
      {| continue := false; coach := self; database := db;
         effects := [SaveProgress (progress self); Print (Line "Progress saved! See you next time.")] |}
  | CSql cmd =>
      let self := set_last_query self (Some cmd) in
      let '(res, db) := execute_sql cmd db in
      if is_error res then
        proceed self db [Print (ErrorBox ("SQL Error:" +:+ nl +:+ default EmptyString (error_of res)))]
      else
        proceed self db
          [Print (Line "Query executed!"); Print (Table (columns_of res) (rows_of res))]
  | CUnknown =>
      proceed self db [Print (Line "Unknown command. Type 'help' for available commands.")]
  end.

(** What [input] yields: a line, or one of the two exceptions the loop
    of [run] catches. *)
Inductive input :=
| Entered (line : string)
| KeyboardInterrupt
| EOFError.

(** The [while True] loop of [run] on the inputs that arrive. *)
Fixpoint main_loop (inputs : list input) (self : SQLCoach) (db : DB)
  : SQLCoach * DB * list effect :=
  match inputs with
  | [] => (self, db, [])
  | Entered line :: rest =>
      let r := handle_command line self db in
      if continue r then
        let '(self', db', out) := main_loop rest (coach r) (database r) in
        (self', db', effects r ++ out)
      else (coach r, database r, effects r)
  | KeyboardInterrupt :: _ =>
      (self, db, [Print (Line "Progress saved! Goodbye."); SaveProgress (progress self)])
  | EOFError :: _ => (self, db, [])
  end.

(** [SQLCoach.run] *)
Definition run (inputs : list input) (self : SQLCoach) (db : DB)
  : SQLCoach * DB * list effect :=
  let '(shown, out) := show_current_lesson self in
  let '(self', db', rest) := main_loop inputs shown db in
  (self', db', [ClearScreen; Print Banner; Print Welcome] ++ out ++ rest).

(** The commands the loop handles, each with the coach before it and
    what it leaves; the loop stops after the command that returns
    [False]. *)
Fixpoint history (lines : list string) (self : SQLCoach) (db : DB)
  : list (SQLCoach * string * outcome) :=
  match lines with
  | [] => []
  | line :: rest =>
      let r := handle_command line self db in
      (self, line, r) ::
      (if continue r then history rest (coach r) (database r) else [])
  end.

(** The coaches a run can be in: the fresh object, the one its first
    lesson display leaves, and every one a command produces. *)
Inductive reachable : SQLCoach -> Prop :=
| reach_init file now : reachable (init file now)
| reach_shown self : reachable self -> reachable (fst (show_current_lesson self))
| reach_step self line db :
    reachable self -> reachable (coach (handle_command line self db)).

End Coach.

Arguments ExecOk {Row} columns rows.
Arguments ExecErr {Row} error.
Arguments Banner {Row}.
Arguments Welcome {Row}.
Arguments ErrorBox {Row} message.
Arguments SuccessBox {Row} message.
Arguments HintBox {Row} hint_num total_hints hint_text.
Arguments NextStepBox {Row} step_num total_steps step_text.
Arguments AnswerBox {Row} answer_text.
Arguments Table {Row} columns rows.
Arguments ProgressBar {Row} current total.
Arguments LessonView {Row} p l.
Arguments ExecutionOrder {Row} steps.
Arguments Schema {Row}.
Arguments TableList {Row}.
Arguments HelpText {Row}.
Arguments ProgressReport {Row} completed current.
Arguments Line {Row} text.
Arguments ClearScreen {Row}.
Arguments Print {Row} p.
Arguments SaveProgress {Row} p.
Arguments show_current_lesson {Row} self.
Arguments continue {Row DB} o.
Arguments coach {Row DB} o.
Arguments database {Row DB} o.
Arguments effects {Row DB} o.
Arguments proceed {Row DB} self db out.
Arguments is_error {Row} r.
Arguments error_of {Row} r.
Arguments columns_of {Row} r.
Arguments rows_of {Row} r.
Arguments handle_command {Row DB} execute_sql line self db.
Arguments main_loop {Row DB} execute_sql inputs self db.
Arguments run {Row DB} execute_sql inputs self db.
Arguments history {Row DB} execute_sql lines self db.
Arguments reachable {Row DB} execute_sql _.

(** The progress records written to the file, oldest first. *)
Fixpoint saved {Row : Type} (out : list (effect Row)) : list Progress :=
  match out with
  | [] => []
  | SaveProgress p :: out' => p :: saved out'
  | _ :: out' => saved out'
  end.

(** ** A concrete executor for examples

    A stand-in database: a list of table names.  A query succeeds, with an
    empty result, when it mentions one of the tables (compared in lower
    case), and fails with SQLite's message otherwise.  Rows are lists of
    strings. *)
Module Demo.

Definition Row : Type := list string.
Definition DB : Type := list string.

Definition seeded : DB :=
  ["campaigns"; "ad_groups"; "ad_performance_daily"; "search_terms"; "conversions"].

Definition execute_sql (sql : string) (db : DB) : exec_result Row * DB :=
  if existsb (fun t => contains t (lower sql)) db
  then (ExecOk [] [], db)
  else (ExecErr "no such table", db).

(** The executor once SQLite is out of memory: the exception raised is
    [MemoryError], whose [str] is empty, so that [execute_sql] returns
    [(None, None, '')]. *)
Definition heap_exhausted (sql : string) (db : DB) : exec_result Row * DB :=
  (ExecErr EmptyString, db).

(** A first run: no progress file. *)
Definition fresh : SQLCoach := init None "2024-01-01T00:00:00".

(** A progress file that points at the last lesson. *)
Definition at_last_lesson : SQLCoach :=
  init (Some {| current_lesson := "4.3"; completed_lessons := ["1.1"];
                hint_counts := ∅; started_at := "2024-01-01T00:00:00" |})
       "2024-02-01T00:00:00".

(** A progress file edited by hand: the lesson id does not exist. *)
Definition corrupted : SQLCoach :=
  init (Some {| current_lesson := "9.9"; completed_lessons := [];
                hint_counts := ∅; started_at := "2024-01-01T00:00:00" |})
       "2024-02-01T00:00:00".

End Demo.

(** ** Vocabulary of the properties *)

(** The commands after which the cursors can be back at 0. *)
Definition resets_cursor (c : command) : bool :=
  match c with
  | CReset | CClear | CSkip | CLesson _ => true
  | _ => false
  end.

(** How one command may move the hint cursor. *)
Definition hint_cursor_step {Row DB : Type}
  (before : SQLCoach) (line : string) (r : outcome Row DB) : Prop :=
  let c := classify (strip line) in
  (current_hint (coach r) = current_hint before \/
   (c = CHint /\ current_hint (coach r) = current_hint before + 1) \/
   (resets_cursor c = true /\ current_hint (coach r) = 0)) /\
  (c = CReset -> current_hint (coach r) = 0) /\
  (current_lesson (progress (coach r)) <> current_lesson (progress before) ->
   current_hint (coach r) = 0) /\
  (forall lesson phase,
      c = CHint ->
      get_lesson_by_id (current_lesson (progress before)) = Some (lesson, phase) ->
      length (hints lesson) <= current_hint before ->
      coach r = before /\ continue r = true /\
      effects r = [Print (Line "No more hints! Type 'answer' to see the solution.")]).

(** The current lesson resolves, or nothing of it has been revealed. *)
Definition settled (self : SQLCoach) : Prop :=
  is_Some (get_lesson_by_id (current_lesson (progress self))) \/
  (current_hint self = 0 /\ current_step self = 0).

(** The text each clause is searched by in [explain_execution_order], in
    the order of its tests. *)
Definition probes : list (clause * string) :=
  [ (CTE, "with "); (FROM, "from "); (JOIN, "join "); (WHERE, "where ");
    (GROUP_BY, "group by"); (HAVING, "having "); (SELECT, "select ");
    (DISTINCT, "distinct"); (ORDER_BY, "order by"); (LIMIT, "limit ") ].

(** The clauses of [table] whose text occurs in [q], letter case ignored. *)
Definition clauses_found (table : list (clause * string)) (q : string) : list clause :=
  map fst (List.filter (fun cw => contains (snd cw) (lower q)) table).

(** Numbering from 1. *)
Definition numbered {A : Type} (l : list A) : list (nat * A) :=
  combine (seq 1 (length l)) l.

(** The keywords as the specification lists them: the bare words. *)
Definition spec_keywords : list (clause * string) :=
  [ (CTE, "with"); (FROM, "from"); (JOIN, "join"); (WHERE, "where");
    (GROUP_BY, "group by"); (HAVING, "having"); (SELECT, "select");
    (DISTINCT, "distinct"); (ORDER_BY, "order by"); (LIMIT, "limit") ].

(** Lengths that never go down. *)
Fixpoint nondecreasing (l : list nat) : bool :=
  match l with
  | a :: (b :: _) as rest => (a <=? b)%nat && nondecreasing rest
  | _ => true
  end.

Definition step_lengths (l : Lesson) : list nat :=
  map String.length (solution_steps l).

(** Each blank widened to a blank, a tab and a blank. *)
Fixpoint widen (s : string) : string :=
  match s with
  | EmptyString => EmptyString
  | String c s' =>
      if Ascii.eqb c " "%char
      then String " "%char (String (ascii_of_nat 9) (String " "%char (widen s')))
      else String c (widen s')
  end.

(** [same_text a b]: [b] is [a] typed again with other letter case and
    other whitespace.  Character by character, a character of [a] that is
    not whitespace is answered by the same character in either case, and
    a whitespace character by a whitespace character, before which [b]
    may have more of them.  So every whitespace run of [a] becomes a run
    at least as long, and [b] has whitespace nowhere else. *)
Inductive same_text : string -> string -> Prop :=
| same_end : same_text EmptyString EmptyString
| same_char (c d : ascii) (s t : string) :
    isspace c = false -> lower_char c = lower_char d ->
    same_text s t -> same_text (String c s) (String d t)
| same_blank (c d : ascii) (s t : string) :
    isspace c = true -> isspace d = true ->
    same_text s t -> same_text (String c s) (String d t)
| same_wider (c d : ascii) (s t : string) :
    isspace c = true -> isspace d = true ->
    same_text (String c s) t -> same_text (String c s) (String d t).

(** The words of the commands that read the current lesson. *)
Definition lesson_words : list string :=
  ["hint"; "stuck"; "help me"; "next"; "answer"; "solution"; "skip"].

(** A command on the demonstration executor. *)
Abbreviation demo := (handle_command Demo.execute_sql).

(** What holds after the query [sql] of a line was handed to the executor,
    whatever the executor answered. *)
Definition submitted_query {Row DB : Type} (execute_sql : string -> DB -> exec_result Row * DB)
  (sql : string) (self : SQLCoach) (db : DB) (r : outcome Row DB) : Prop :=
  last_query (coach r) = Some sql /\
  progress (coach r) = progress self /\
  current_hint (coach r) = current_hint self /\
  current_step (coach r) = current_step self /\
  continue r = true /\
  database r = snd (execute_sql sql db) /\
  saved (effects r) = [] /\
  (forall e, fst (execute_sql sql db) = ExecErr e -> e <> EmptyString ->
             effects r = [Print (ErrorBox ("SQL Error:" +:+ nl +:+ e))]).

(** ** Shapes of strings *)

(** Every character of [s] satisfies [p]. *)
Fixpoint all_chars (p : ascii -> bool) (s : string) : bool :=
  match s with
  | EmptyString => true
  | String c s' => p c && all_chars p s'
  end.

(** The first character of [s] exists and satisfies [p]. *)
Definition starts_in (p : ascii -> bool) (s : string) : bool :=
  match s with
  | EmptyString => false
  | String c _ => p c
  end.

(** The last character of [s] exists and satisfies [p]. *)
Fixpoint ends_in (p : ascii -> bool) (s : string) : bool :=
  match s with
  | EmptyString => false
  | String c EmptyString => p c
  | String _ s' => ends_in p s'
  end.

(** The only whitespace in [s] is the blank, and no blank is followed by
    whitespace. *)
Fixpoint single_spaced (s : string) : bool :=
  match s with
  | EmptyString => true
  | String c s' =>
      (if isspace c then Ascii.eqb c " "%char && negb (starts_in isspace s') else true)
      && single_spaced s'
  end.

Definition is_semicolon (c : ascii) : bool := Ascii.eqb ";"%char c.
Definition is_blank (c : ascii) : bool := Ascii.eqb " "%char c.

(** The hint boxes for the hints at positions [from], ..., [from + count - 1]
    of a lesson. *)
Definition hint_boxes {Row : Type} (lesson : Lesson) (from count : nat) : list (effect Row) :=
  map (fun i => Print (HintBox (i + 1) (length (hints lesson))
                               (nth i (hints lesson) EmptyString)))
      (seq from count).

(** The same for the solution steps. *)
Definition step_boxes {Row : Type} (lesson : Lesson) (from count : nat) : list (effect Row) :=
  map (fun i => Print (NextStepBox (i + 1) (length (solution_steps lesson))
                                   (nth i (solution_steps lesson) EmptyString)))
      (seq from count).

(** What [next] prints once the steps are used up. *)
Definition full_solution {Row : Type} (lesson : Lesson) : list (effect Row) :=
  [Print (Line "No more steps! Here's the full solution:"); Print (AnswerBox (answer lesson))].

(** The ids of the curriculum, in declaration order. *)
Definition lesson_ids : list string := map lesson_id all_lessons.

(** [p] is [p0] after some lessons were completed: same [started_at] and
    [hint_counts], and the completed lessons of [p0] followed by ids of
    the curriculum, without a duplicate unless [p0] had one. *)
Definition extends (p0 p : Progress) : Prop :=
  started_at p = started_at p0 /\
  hint_counts p = hint_counts p0 /\
  (exists added, completed_lessons p = completed_lessons p0 ++ added /\
                 Forall (fun id => In id lesson_ids) added) /\
  (NoDup (completed_lessons p0) -> NoDup (completed_lessons p)).

(** The completed lessons are lessons of the curriculum, each once. *)
Definition completed_ok (p : Progress) : Prop :=
  NoDup (completed_lessons p) /\ Forall (fun id => In id lesson_ids) (completed_lessons p).

(** A progress bar that is not past its end. *)
Definition bar_within_total {Row : Type} (e : effect Row) : Prop :=
  match e with
  | Print (ProgressBar current total) => current <= total
  | _ => True
  end.

(** What [show_current_lesson] prints for a lesson id that does not
    resolve. *)
Definition lesson_not_found {Row : Type} : effect Row :=
  Print (ErrorBox "Lesson not found!").

(** [P] holds of the record an effect saves, if it saves one. *)
Definition on_saves {Row : Type} (P : Progress -> Prop) (e : effect Row) : Prop :=
  match e with
  | SaveProgress p => P p
  | _ => True
  end.

(** The cursors stay within the hints and steps of the current lesson. *)
Definition within_lesson (self : SQLCoach) : Prop :=
  forall lesson phase,
    get_lesson_by_id (current_lesson (progress self)) = Some (lesson, phase) ->
    current_hint self <= length (hints lesson) /\
    current_step self <= length (solution_steps lesson).

(** ** The result table *)

(** The colour codes [print_table] writes, from the class [Colors]. *)
Module C.

Definition ESC : ascii := ascii_of_nat 27.
Definition RESET : string := String ESC "[0m".
Definition BOLD : string := String ESC "[1m".
Definition DIM : string := String ESC "[2m".
Definition WHITE : string := String ESC "[37m".
Definition BRIGHT_WHITE : string := String ESC "[97m".

End C.

(** [' ' * n] *)
Fixpoint spaces (n : nat) : string :=
  match n with
  | O => EmptyString
  | S n' => String " "%char (spaces n')
  end.

(** [s.ljust(width)] *)
Definition ljust (s : string) (width : nat) : string :=
  s +:+ spaces (width - String.length s).

(** [s[:n]] *)
Fixpoint upto (n : nat) (s : string) : string :=
  match n, s with
  | S n', String c s' => String c (upto n' s')
  | _, _ => EmptyString
  end.

(** The width of column [i] of [print_table]: the longest of the header
    and of the cells of that column, each cut at [max_col_width].  A row
    is the list of its cells as [str] shows them. *)
Definition column_width (max_col_width : nat) (rows : list (list string))
  (i : nat) (col : string) : nat :=
  let max_width :=
    fold_left (fun max_width row =>
                 match nth_error row i with
                 | Some cell => Nat.max max_width (String.length (upto max_col_width cell))
                 | None => max_width
                 end)
              rows (String.length col) in
  Nat.min max_width max_col_width.

(** What is written between two bars of a line: the characters, and how
    many of them are colour codes. *)
Record shown := {
  printed : string;
  codes : nat
}.

Definition visible_width (c : shown) : nat := String.length (printed c) - codes c.

(** A cell of the header line. *)
Definition header_cell (width : nat) (col : string) : shown :=
  {| printed := C.BOLD +:+ ljust (upto width col) width +:+ C.RESET;
     codes := String.length C.BOLD + String.length C.RESET |}.

(** A cell of the line of a row: [val] is [str(row[i])], or the empty
    string in a row that is too short; the text [None] is shown as a dim
    NULL. *)
Definition row_cell (row_color : string) (row : list string) (i col_width : nat) : shown :=
  let val := match nth_error row i with Some cell => cell | None => EmptyString end in
  if (val =? "None")%string then
    {| printed := ljust (C.DIM +:+ "NULL" +:+ C.RESET)
                        (col_width + String.length C.DIM + String.length C.RESET);
       codes := String.length C.DIM + String.length C.RESET |}
  else
    {| printed := row_color +:+ ljust (upto col_width val) col_width +:+ C.RESET;
       codes := String.length row_color + String.length C.RESET |}.

(** What [print_table] prints: the notice for an empty result, or the
    grid, whose borders follow [col_widths], and the count below it. *)
Inductive table_view :=
| NoResults
| Grid (col_widths : list nat) (header : list shown) (body : list (list shown))
       (returned : nat).

(** [print_table] *)
Definition print_table (columns : list string) (rows : list (list string))
  (max_col_width : nat) : table_view :=
  match rows with
  | [] => NoResults
  | _ =>
      let col_widths := imap (column_width max_col_width rows) columns in
      let header_line := imap (fun i col => header_cell (nth i col_widths 0) col) columns in
      let row_lines :=
        imap (fun row_idx row =>
                let row_color := if Nat.even row_idx then C.WHITE else C.BRIGHT_WHITE in
                imap (fun i col_width => row_cell row_color row i col_width) col_widths)
             rows in
      Grid col_widths header_line row_lines (length rows)
  end.

(** Every cell of a line is as wide as its column. *)
Definition aligned (col_widths : list nat) (line : list shown) : Prop :=
  Forall2 (fun w c => visible_width c = w) col_widths line.

(** ** The definitions on examples *)

Example strip_ex : strip "  run  SELECT 1 ; " = "run  SELECT 1 ;".
Proof. reflexivity. Qed.

Example collapse_ex : collapse_whitespace "a   b  c " = "a b c ".
Proof. reflexivity. Qed.

Example rstrip_semicolons_ex : rstrip_semicolons "a;b;;" = "a;b".
Proof. reflexivity. Qed.

Example contains_ex : contains "from " "select * from t" = true /\ contains "from " "select * from" = false.
Proof. split; reflexivity. Qed.

Example total_lessons_13 : get_total_lessons = 13.
Proof. reflexivity. Qed.

Example next_of_1_4 : get_next_lesson_id "1.4" = Some "2.1".
Proof. reflexivity. Qed.

Example next_of_last : get_next_lesson_id "4.3" = None.
Proof. reflexivity. Qed.

Example normalize_ex :
  normalize_sql "  SELECT   a,b   FROM t; " = "select a,b from t".
Proof. reflexivity. Qed.

Example explain_ex :
  explain_execution_order "SELECT a FROM t WHERE a > 1 ORDER BY a LIMIT 5"
  = [(1, FROM); (2, WHERE); (3, SELECT); (4, ORDER_BY); (5, LIMIT)].
Proof. reflexivity. Qed.

Example classify_run_example : classify "RUN  select 1 " = CRun "select 1".
Proof. reflexivity. Qed.

Example classify_bare_example : classify "With x as (select 1) select * from x" = CSql "With x as (select 1) select * from x".
Proof. reflexivity. Qed.

(** ** Which branch a line takes *)

Lemma truthy_of_lower (s : string) (c : ascii) (t : string) :
  lower s = String c t -> truthy s = true.
Proof. destruct s; [discriminate | reflexivity]. Qed.

(** A line whose lower-case form is the command word [w] takes the branch
    that [classify] computes for [w] itself. *)
Ltac word_branch H :=
  unfold classify;
  rewrite (truthy_of_lower _ _ _ H); cbv zeta; rewrite H; reflexivity.

Lemma classify_hint cmd :
  lower cmd = "hint" \/ lower cmd = "stuck" \/ lower cmd = "help me" -> classify cmd = CHint.
Proof. intros [H | [H | H]]; word_branch H. Qed.

Lemma classify_next cmd : lower cmd = "next" -> classify cmd = CNext.
Proof. intros H; word_branch H. Qed.

Lemma classify_answer cmd :
  lower cmd = "answer" \/ lower cmd = "solution" -> classify cmd = CAnswer.
Proof. intros [H | H]; word_branch H. Qed.

Lemma classify_explain cmd : lower cmd = "explain" -> classify cmd = CExplain.
Proof. intros H; word_branch H. Qed.

Lemma classify_skip cmd : lower cmd = "skip" -> classify cmd = CSkip.
Proof. intros H; word_branch H. Qed.

Lemma classify_reset cmd : lower cmd = "reset" -> classify cmd = CReset.
Proof. intros H; word_branch H. Qed.

Lemma classify_clear cmd :
  lower cmd = "clear" \/ lower cmd = "cls" -> classify cmd = CClear.
Proof. intros [H | H]; word_branch H. Qed.

Lemma startswith_nonempty (p s : string) (c : ascii) (t : string) :
  p = String c t -> startswith p s = true -> s <> EmptyString.
Proof. intros -> H ->. discriminate. Qed.

Lemma classify_run cmd :
  startswith "run " (lower cmd) = true -> classify cmd = CRun (strip (drop 4 cmd)).
Proof.
  intros H. unfold classify.
  destruct cmd as [| c t]; [discriminate |].
  cbv zeta. rewrite H. reflexivity.
Qed.

(** The branches that submit a query carry the text [classify] cut out of
    the line: what follows [run], or the whole line. *)
Lemma classify_CRun_inv cmd sql :
  classify cmd = CRun sql ->
  startswith "run " (lower cmd) = true /\ sql = strip (drop 4 cmd).
Proof.
  unfold classify. cbv zeta.
  repeat match goal with
         | |- context [if ?b then _ else _] => destruct b eqn:?
         end; intros E; inversion E; auto.
Qed.

Lemma classify_CSql_inv cmd q :
  classify cmd = CSql q ->
  q = cmd /\ looks_like_sql (lower cmd) = true /\ startswith "run " (lower cmd) = false.
Proof.
  unfold classify. cbv zeta.
  repeat match goal with
         | |- context [if ?b then _ else _] => destruct b eqn:?
         end; intros E; inversion E; auto.
Qed.

(** ** Lookups in the curriculum *)

Lemma find_lesson_In (id : string) (ls : list Lesson) :
  In id (map lesson_id ls) -> find_lesson id ls <> None.
Proof.
  induction ls as [| l ls IH]; simpl; [tauto |].
  intros [E | Hin].
  - rewrite E, String.eqb_refl. discriminate.
  - destruct (lesson_id l =? id)%string; [discriminate | auto].
Qed.

Lemma get_lesson_in_In (phases : list Phase) (id : string) :
  In id (map lesson_id (all_lessons_of phases)) -> get_lesson_in phases id <> None.
Proof.
  unfold all_lessons_of.
  induction phases as [| p ps IH]; simpl; [tauto |].
  rewrite map_app, in_app_iff. intros Hin.
  destruct (find_lesson id (lessons p)) eqn:E; [discriminate |].
  destruct Hin as [Hin | Hin]; [| auto].
  exfalso. exact (find_lesson_In _ _ Hin E).
Qed.

Lemma find_lesson_id (id : string) (ls : list Lesson) (l : Lesson) :
  find_lesson id ls = Some l -> lesson_id l = id.
Proof.
  induction ls as [| l0 ls IH]; simpl; [discriminate |].
  destruct (lesson_id l0 =? id)%string eqn:E; [| exact IH].
  intros [= <-]. now apply String.eqb_eq.
Qed.

(** The lesson returned for an id carries that id. *)
Lemma get_lesson_in_id (phases : list Phase) (id : string) (l : Lesson) (p : Phase) :
  get_lesson_in phases id = Some (l, p) -> lesson_id l = id.
Proof.
  induction phases as [| p0 ps IH]; simpl; [discriminate |].
  destruct (find_lesson id (lessons p0)) eqn:E; [| exact IH].
  intros [= <- _]. exact (find_lesson_id _ _ _ E).
Qed.

Lemma get_lesson_by_id_id (id : string) (l : Lesson) (p : Phase) :
  get_lesson_by_id id = Some (l, p) -> lesson_id l = id.
Proof. apply get_lesson_in_id. Qed.

(** The id [get_next_lesson_id] returns is the id of a lesson. *)
Lemma next_lesson_resolves (current_id next_id : string) :
  get_next_lesson_id current_id = Some next_id -> get_lesson_by_id next_id <> None.
Proof.
  unfold get_next_lesson_id, next_lesson_id_in, get_lesson_by_id.
  destruct (index_of _ _) as [idx |]; [| discriminate].
  destruct (_ <? _)%nat; [| discriminate].
  intros H. apply get_lesson_in_In. exact (nth_error_In _ _ H).
Qed.

(** ** One command at a time *)

Lemma show_found {Row : Type} (self : SQLCoach) (lesson : Lesson) (phase : Phase) :
  get_lesson_by_id (current_lesson (progress self)) = Some (lesson, phase) ->
  show_current_lesson (Row := Row) self
  = (set_current_step (set_current_hint self 0) 0,
     [Print (ProgressBar (length (completed_lessons (progress self))) get_total_lessons);
      Print (LessonView phase lesson)]).
Proof. intros H. unfold show_current_lesson. rewrite H. reflexivity. Qed.

Lemma show_missing {Row : Type} (self : SQLCoach) :
  get_lesson_by_id (current_lesson (progress self)) = None ->
  show_current_lesson (Row := Row) self = (self, [Print (ErrorBox "Lesson not found!")]).
Proof. intros H. unfold show_current_lesson. rewrite H. reflexivity. Qed.

(** The two ways [show_current_lesson] can end. *)
Lemma show_inv {Row : Type} (self shown : SQLCoach) (out : list (effect Row)) :
  show_current_lesson self = (shown, out) ->
  (exists lesson phase,
      get_lesson_by_id (current_lesson (progress self)) = Some (lesson, phase) /\
      shown = set_current_step (set_current_hint self 0) 0 /\
      out = [Print (ProgressBar (length (completed_lessons (progress self))) get_total_lessons);
             Print (LessonView phase lesson)]) \/
  (get_lesson_by_id (current_lesson (progress self)) = None /\
   shown = self /\ out = [Print (ErrorBox "Lesson not found!")]).
Proof.
  destruct (get_lesson_by_id (current_lesson (progress self))) as [[lesson phase] |] eqn:E.
  - rewrite (show_found _ _ _ E). intros [= <- <-]. left. eauto.
  - rewrite (show_missing _ E). intros [= <- <-]. right. auto.
Qed.

(** Case analysis along the branches of [handle_command]. *)
Ltac branches :=
  repeat match goal with
    | |- context [match classify ?c with _ => _ end] => destruct (classify c) eqn:?
    | |- context [show_current_lesson ?s] =>
        let E := fresh "Hshow" in
        destruct (show_current_lesson s) as [? ?] eqn:E;
        apply show_inv in E;
        destruct E as [(? & ? & ? & ? & ?) | (? & ? & ?)]; subst
    | |- context [let '(_, _) := ?e in _] => destruct e as [? ?] eqn:?
    | |- context [match get_lesson_by_id ?x with _ => _ end] =>
        destruct (get_lesson_by_id x) as [[? ?] |] eqn:?
    | |- context [match get_next_lesson_id ?x with _ => _ end] =>
        destruct (get_next_lesson_id x) eqn:?
    | |- context [match last_query ?s with _ => _ end] => destruct (last_query s) eqn:?
    | |- context [if ?b then _ else _] => destruct b eqn:?
    end.

Section Properties.

Context {Row DB : Type}.
Variable execute_sql : string -> DB -> exec_result Row * DB.

Local Abbreviation handle := (handle_command execute_sql).

(** No branch touches [hint_counts] or [started_at], and what a branch
    saves is the progress it leaves. *)
Lemma handle_frame (line : string) (self : SQLCoach) (db : DB) :
  let r := handle line self db in
  hint_counts (progress (coach r)) = hint_counts (progress self) /\
  started_at (progress (coach r)) = started_at (progress self) /\
  Forall (fun p => p = progress (coach r)) (saved (effects r)).
Proof.
  unfold handle_command; cbv zeta.
  branches; simpl; repeat split; auto.
Qed.

(** *** Cursors *)

Lemma handle_settled (line : string) (self : SQLCoach) (db : DB) :
  settled self -> settled (coach (handle line self db)).
Proof.
  unfold settled, handle_command; cbv zeta. intros Hs.
  branches; simpl in *; auto;
    try (left; eauto; fail);
    try (exfalso; eapply next_lesson_resolves; eauto; fail);
    try congruence.
  all: destruct Hs as [[? ?] | [? ?]]; [congruence | right; auto].
Qed.

Lemma reachable_settled (self : SQLCoach) :
  reachable execute_sql self -> settled self.
Proof.
  induction 1 as [file now | self _ IH | self line db _ IH].
  - right. split; reflexivity.
  - unfold settled in *.
    destruct (show_current_lesson (Row := Row) self) as [shown out] eqn:E.
    apply show_inv in E. simpl.
    destruct E as [(l & p & Hf & -> & _) | (_ & -> & _)]; [left; simpl; eauto | exact IH].
  - now apply handle_settled.
Qed.

(** C9. [clear] and [cls] leave both cursors at 0 in every coach a run can
    reach, although the current lesson id stays the same; the progress is
    neither modified nor written to the file.  When the current lesson
    resolves, what is printed is the lesson again. *)
Theorem clear_resets_cursors (line : string) (self : SQLCoach) (db : DB) :
  reachable execute_sql self ->
  lower (strip line) = "clear" \/ lower (strip line) = "cls" ->
  let r := handle line self db in
  current_hint (coach r) = 0 /\ current_step (coach r) = 0 /\
  progress (coach r) = progress self /\
  saved (effects r) = [] /\
  continue r = true /\
  (forall lesson phase,
      get_lesson_by_id (current_lesson (progress self)) = Some (lesson, phase) ->
      effects r =
        [ClearScreen; Print Banner;
         Print (ProgressBar (length (completed_lessons (progress self))) get_total_lessons);
         Print (LessonView phase lesson)]).
Proof.
  intros Hr Hw. apply reachable_settled in Hr.
  unfold handle_command; cbv zeta. rewrite (classify_clear _ Hw).
  branches; simpl.
  - repeat split; auto. intros l p E. congruence.
  - destruct Hr as [[? ?] | [? ?]]; [congruence |].
    repeat split; auto. intros l p E. congruence.
Qed.

Lemma handle_hint_cursor (line : string) (self : SQLCoach) (db : DB) :
  hint_cursor_step self line (handle line self db).
Proof.
  unfold hint_cursor_step, handle_command; cbv zeta.
  branches; simpl in *;
    try (exfalso; eapply next_lesson_resolves; eauto; fail);
    (split; [| split; [| split]]);
    try discriminate; try congruence; auto;
    try (intros ? ? ? ? ?; try discriminate).
  all: try (right; right; split; reflexivity).
  all: try (right; left; split; reflexivity).
  all: try (exfalso;
            match goal with
            | H : (_ <? _)%nat = true |- _ => apply Nat.ltb_lt in H
            end;
            match goal with
            | H : Some _ = Some _ |- _ => inversion H; subst
            end; lia).
  all: try (repeat split; reflexivity).
Qed.

(** C3 (as amended).  Over every sequence of commands, a command leaves
    the hint cursor where it is, or is a hint that moves it up by one, or
    is one of [reset], [clear]/[cls], [skip], [lesson <id>] and leaves it
    at 0; [reset] always leaves it at 0; it is 0 after every command that
    changes the current lesson id; and a hint asked when the cursor has
    reached the number of hints changes nothing, prints the notice that
    no hint is left and lets the loop go on. *)
Theorem hint_cursor_over_commands (lines : list string) (self : SQLCoach) (db : DB) :
  Forall (fun step => hint_cursor_step (fst (fst step)) (snd (fst step)) (snd step))
         (history execute_sql lines self db).
Proof.
  revert self db.
  induction lines as [| line rest IH]; intros self db; simpl; constructor.
  - apply handle_hint_cursor.
  - destruct (continue _); [apply IH | constructor].
Qed.

(** *** A current lesson id that does not resolve *)

Lemma classify_lesson_word (cmd : string) :
  In (lower cmd) lesson_words -> In (classify cmd) [CHint; CNext; CAnswer; CSkip].
Proof.
  unfold lesson_words. simpl.
  intros [H | [H | [H | [H | [H | [H | [H | []]]]]]]]; symmetry in H.
  - rewrite classify_hint; auto.
  - rewrite classify_hint; auto.
  - rewrite classify_hint; auto.
  - rewrite classify_next; auto.
  - rewrite classify_answer; auto.
  - rewrite classify_answer; auto.
  - rewrite classify_skip; auto 6.
Qed.

(** C6 (as amended).  When the current lesson id does not resolve, [hint]
    (and its synonyms), [next], [answer]/[solution] and [skip] print
    nothing and change nothing; only the lesson display, of [clear]/[cls],
    reports "Lesson not found!", again without changing anything; each
    returns [True], so the loop goes on. *)
Theorem unresolved_lesson_is_silent (line : string) (self : SQLCoach) (db : DB) :
  get_lesson_by_id (current_lesson (progress self)) = None ->
  let r := handle line self db in
  (In (lower (strip line)) lesson_words -> r = proceed self db []) /\
  (lower (strip line) = "clear" \/ lower (strip line) = "cls" ->
   r = proceed self db [ClearScreen; Print Banner; Print (ErrorBox "Lesson not found!")]) /\
  show_current_lesson self = (self, [Print (ErrorBox (Row := Row) "Lesson not found!")]).
Proof.
  intros Hnone. cbv zeta. repeat split.
  - intros Hw. apply classify_lesson_word in Hw.
    unfold handle_command; cbv zeta. rewrite Hnone.
    simpl in Hw. destruct Hw as [E | [E | [E | [E | []]]]]; rewrite <- E; reflexivity.
  - intros Hw. unfold handle_command; cbv zeta.
    rewrite (classify_clear _ Hw), (show_missing _ Hnone). reflexivity.
  - apply show_missing, Hnone.
Qed.

(** *** Submitted queries *)

Local Abbreviation submitted := (submitted_query execute_sql).

Lemma truthy_true (e : string) : e <> EmptyString -> truthy e = true.
Proof. destruct e; [congruence | reflexivity]. Qed.

(** What holds of a submitted query, for [run <sql>] and for a line
    taken as SQL because of its keywords.  Whether the executor succeeded
    or not, [last_query] becomes the submitted text (the line without
    surrounding blanks, and without its [run] prefix), progress and both
    cursors are unchanged, nothing is saved and the command returns
    [True].  An error whose message is not empty is printed as text in
    an error box: [if error:] tests the message, not [None]. *)
Theorem query_error_is_contained (line : string) (self : SQLCoach) (db : DB) :
  let cmd := strip line in
  let r := handle line self db in
  (startswith "run " (lower cmd) = true -> submitted (strip (drop 4 cmd)) self db r) /\
  (forall q, classify cmd = CSql q -> q = cmd /\ submitted cmd self db r).
Proof.
  cbv zeta. split.
  - intros Hrun. unfold submitted_query, handle_command; cbv zeta.
    rewrite (classify_run _ Hrun).
    destruct (execute_sql _ db) as [res db'] eqn:E. simpl.
    destruct (is_error res) eqn:Herr; simpl; repeat split; auto.
    + intros e -> _. reflexivity.
    + branches; reflexivity.
    + intros e -> Hne. unfold is_error in Herr. simpl in Herr.
      rewrite (truthy_true _ Hne) in Herr. discriminate.
  - intros q Hq. destruct (classify_CSql_inv _ _ Hq) as (-> & _ & _).
    split; [reflexivity |].
    unfold submitted_query, handle_command; cbv zeta. rewrite Hq.
    destruct (execute_sql _ db) as [res db'] eqn:E. simpl.
    destruct (is_error res) eqn:Herr; simpl; repeat split; auto.
    + intros e -> _. reflexivity.
    + intros e -> Hne. unfold is_error in Herr. simpl in Herr.
      rewrite (truthy_true _ Hne) in Herr. discriminate.
Qed.

(** *** Explain *)

(** The explanation lists the clauses whose probe occurs in the query,
    in the order of [probes], numbered from 1. *)
Lemma explain_execution_order_found (q : string) :
  explain_execution_order q = numbered (clauses_found probes q).
Proof.
  unfold explain_execution_order, clauses_found, probes; cbv zeta; simpl List.filter.
  destruct (contains "with " (lower q)), (contains "from " (lower q)),
    (contains "join " (lower q)), (contains "where " (lower q)),
    (contains "group by" (lower q)), (contains "having " (lower q)),
    (contains "select " (lower q)), (contains "distinct" (lower q)),
    (contains "order by" (lower q)), (contains "limit " (lower q));
    reflexivity.
Qed.

(** C8 (as amended).  [explain] changes no state.  With no last query
    (or an empty one) it prints the request to run a query first.
    Otherwise it prints, numbered from 1 and in the order CTE, FROM,
    JOIN, WHERE, GROUP BY, HAVING, SELECT, DISTINCT, ORDER BY, LIMIT,
    exactly the clauses whose search text occurs in the lower-cased
    last query, the search text being the keyword followed by one
    space for with, from, join, where, having, select and limit, and
    the bare keyword for group by, distinct and order by. *)
Theorem explain_lists_probed_clauses (line : string) (self : SQLCoach) (db : DB) :
  lower (strip line) = "explain" ->
  let r := handle line self db in
  coach r = self /\ database r = db /\ continue r = true /\
  match last_query self with
  | Some q =>
      if truthy q
      then effects r = [Print (ExecutionOrder (numbered (clauses_found probes q)))]
      else effects r = [Print (Line "Run a query first, then type 'explain' to see execution order.")]
  | None =>
      effects r = [Print (Line "Run a query first, then type 'explain' to see execution order.")]
  end.
Proof.
  intros Hw. unfold handle_command; cbv zeta. rewrite (classify_explain _ Hw).
  destruct (last_query self) as [q |]; [destruct (truthy q) |]; simpl;
    repeat split; try reflexivity.
  now rewrite explain_execution_order_found.
Qed.

(** *** The progress file *)

Lemma saved_app (a b : list (effect Row)) : saved (a ++ b) = saved a ++ saved b.
Proof.
  induction a as [| e a IH]; simpl; [reflexivity |].
  destruct e; simpl; congruence.
Qed.

Lemma main_loop_hint_counts (inputs : list input) (self : SQLCoach) (db : DB) :
  let result := main_loop execute_sql inputs self db in
  hint_counts (progress (fst (fst result))) = hint_counts (progress self) /\
  Forall (fun p => hint_counts p = hint_counts (progress self)) (saved (snd result)).
Proof.
  revert self db.
  induction inputs as [| i rest IH]; intros self db; simpl.
  - split; [reflexivity | constructor].
  - destruct i as [line | |]; simpl.
    + destruct (handle_frame line self db) as (Hc & _ & Hs).
      destruct (continue (handle line self db)).
      * specialize (IH (coach (handle line self db)) (database (handle line self db))).
        destruct (main_loop _ _ _ _) as [[self' db'] out]. simpl in *.
        destruct IH as [IH1 IH2]. split; [congruence |].
        rewrite saved_app. apply Forall_app. split.
        -- eapply List.Forall_impl; [| exact Hs]. simpl. intros p ->. exact Hc.
        -- eapply List.Forall_impl; [| exact IH2]. simpl. intros p ->. exact Hc.
      * simpl. split; [exact Hc |].
        eapply List.Forall_impl; [| exact Hs]. simpl. intros p ->. exact Hc.
    + split; [reflexivity |]. repeat constructor.
    + split; [reflexivity | constructor].
Qed.

(** C10.  Whatever is entered during a run, every record written to the
    progress file, and the record in memory at the end, carries the
    [hint_counts] that [load_progress] returned at startup; on a first
    run that is the empty mapping. *)
Theorem hint_counts_never_written
  (file : option Progress) (now : string) (inputs : list input) (db : DB) :
  let loaded := load_progress file now in
  let result := run execute_sql inputs (init file now) db in
  Forall (fun p => hint_counts p = hint_counts loaded) (saved (snd result)) /\
  hint_counts (progress (fst (fst result))) = hint_counts loaded /\
  hint_counts (load_progress None now) = ∅.
Proof.
  cbv zeta. unfold run.
  destruct (show_current_lesson (Row := Row) (init file now)) as [shown out] eqn:E.
  apply show_inv in E.
  pose proof (main_loop_hint_counts inputs shown db) as H.
  destruct (main_loop _ _ _ _) as [[self' db'] rest]. simpl in *.
  assert (hint_counts (progress shown) = hint_counts (load_progress file now)
          /\ saved out = []) as [Hp Ho].
  { destruct E as [(l & p & _ & -> & ->) | (_ & -> & ->)]; split; reflexivity. }
  destruct H as [H1 H2]. rewrite Hp in *.
  repeat split; auto.
  rewrite saved_app, Ho. exact H2.
Qed.

(** *** Matching the answer *)

Lemma run_matching_query
  (line : string) (self : SQLCoach) (db : DB) (lesson : Lesson) :
  startswith "run " (lower (strip line)) = true ->
  fst <$> get_lesson_by_id (current_lesson (progress self)) = Some lesson ->
  normalize_sql (strip (drop 4 (strip line))) = normalize_sql (answer lesson) ->
  let res := fst (execute_sql (strip (drop 4 (strip line))) db) in
  is_error res = false ->
  effects (handle line self db) =
    [Print (Line "Query executed successfully!");
     Print (Table (columns_of res) (rows_of res));
     Print (SuccessBox (Matched (default "Try the next lesson!" (follow_up lesson))))].
Proof.
  intros Hrun Hfound Hnorm res Herr. subst res.
  unfold handle_command; cbv zeta. rewrite (classify_run _ Hrun).
  destruct (execute_sql _ db) as [res db'] eqn:E. simpl in *. rewrite Herr.
  destruct (get_lesson_by_id _) as [[l p] |]; simpl in Hfound; [| discriminate].
  injection Hfound as ->. rewrite Hnorm, String.eqb_refl. reflexivity.
Qed.

(** *** Skip *)

Lemma next_lesson_truthy (current_id next_id : string) :
  get_next_lesson_id current_id = Some next_id -> truthy next_id = true.
Proof.
  unfold get_next_lesson_id, next_lesson_id_in.
  destruct (index_of _ _) as [idx |]; [| discriminate].
  destruct (_ <? _)%nat; [| discriminate].
  intros H. apply nth_error_In in H. simpl in H.
  repeat (destruct H as [<- | H]; [reflexivity |]). destruct H.
Qed.

Lemma mem_In (x : string) (l : list string) : mem x l = true <-> In x l.
Proof.
  unfold mem. rewrite existsb_exists. split.
  - intros (y & Hy & E). apply String.eqb_eq in E. now subst.
  - intros H. exists x. split; [exact H | apply String.eqb_refl].
Qed.

(** What [skip] does when the current lesson resolves: the id is among
    the completed lessons afterwards, once if the list had no duplicate;
    with a next lesson the coach moves there and saves; without one the
    current lesson stays and nothing is saved. *)
Lemma skip_effects (line : string) (self : SQLCoach) (db : DB) (lesson : Lesson) (phase : Phase) :
  lower (strip line) = "skip" ->
  get_lesson_by_id (current_lesson (progress self)) = Some (lesson, phase) ->
  let r := handle line self db in
  let done := completed_lessons (progress self) in
  completed_lessons (progress (coach r))
    = (if mem (lesson_id lesson) done then done else done ++ [lesson_id lesson]) /\
  In (current_lesson (progress self)) (completed_lessons (progress (coach r))) /\
  (NoDup done -> NoDup (completed_lessons (progress (coach r)))) /\
  match get_next_lesson_id (lesson_id lesson) with
  | Some next_id =>
      current_lesson (progress (coach r)) = next_id /\
      saved (effects r) = [progress (coach r)]
  | None =>
      current_lesson (progress (coach r)) = current_lesson (progress self) /\
      saved (effects r) = []
  end.
Proof.
  intros Hw Hfound. cbv zeta.
  pose proof (get_lesson_by_id_id _ _ _ Hfound) as Hid.
  assert (completed_lessons (progress (coach (handle line self db)))
          = (if mem (lesson_id lesson) (completed_lessons (progress self))
             then completed_lessons (progress self)
             else completed_lessons (progress self) ++ [lesson_id lesson])
          /\ match get_next_lesson_id (lesson_id lesson) with
             | Some next_id =>
                 current_lesson (progress (coach (handle line self db))) = next_id /\
                 saved (effects (handle line self db))
                 = [progress (coach (handle line self db))]
             | None =>
                 current_lesson (progress (coach (handle line self db)))
                 = current_lesson (progress self) /\
                 saved (effects (handle line self db)) = []
             end) as [Hdone Hnext].
  { unfold handle_command; cbv zeta. rewrite (classify_skip _ Hw), Hfound.
    destruct (get_next_lesson_id (lesson_id lesson)) as [next_id |] eqn:En.
    - rewrite (next_lesson_truthy _ _ En).
      branches; simpl in *; auto;
        exfalso; eapply next_lesson_resolves; eauto.
    - simpl. auto. }
  rewrite Hdone. repeat split; [| | exact Hnext].
  - rewrite <- Hid.
    destruct (mem _ _) eqn:Em; [now apply mem_In |].
    apply in_or_app. right. now left.
  - intros Hnd. destruct (mem _ _) eqn:Em; [exact Hnd |].
    apply NoDup_app. repeat split; [exact Hnd | | apply NoDup_singleton].
    intros x Hx Hx'. apply list_elem_of_In in Hx, Hx'. destruct Hx' as [<- | []].
    apply mem_In in Hx. congruence.
Qed.

End Properties.

(** ** The curriculum data *)

(** C5, counterexample.  Lesson 4.2 is in the curriculum and its third
    solution step is shorter than its second; lesson 4.3 likewise has a
    second step shorter than its first. *)
Lemma solution_steps_shrink :
  In lesson_4_2 all_lessons /\
  step_lengths lesson_4_2 = [126; 131; 127; 232] /\
  nondecreasing (step_lengths lesson_4_2) = false /\
  In lesson_4_3 all_lessons /\
  step_lengths lesson_4_3 = [179; 170; 446] /\
  nondecreasing (step_lengths lesson_4_3) = false.
Proof.
  repeat split; try reflexivity.
  - unfold all_lessons, all_lessons_of. simpl. auto 20.
  - unfold all_lessons, all_lessons_of. simpl. auto 20.
Qed.

(** C5 (as amended).  Every lesson of the curriculum has at least one
    solution step, its last step is textually its answer, and no step is
    longer than the answer; the steps never get shorter from one to the
    next in any lesson but 4.2 and 4.3. *)
Theorem solution_steps_end_in_answer (lesson : Lesson) :
  In lesson all_lessons ->
  1 <= length (solution_steps lesson) /\
  last (solution_steps lesson) = Some (answer lesson) /\
  forallb (fun step => (String.length step <=? String.length (answer lesson))%nat)
          (solution_steps lesson) = true /\
  (lesson_id lesson <> "4.2" -> lesson_id lesson <> "4.3" ->
   nondecreasing (step_lengths lesson) = true).
Proof.
  unfold all_lessons, all_lessons_of. simpl. intros Hin.
  repeat (destruct Hin as [<- | Hin];
          [repeat split; try (vm_compute; lia); try reflexivity;
           try (intros H1 H2; try reflexivity; exfalso; (now apply H1) || (now apply H2)) |]).
  destruct Hin.
Qed.

Lemma solution_steps_end_in_answer_witness :
  In lesson_4_3 all_lessons /\
  1 <= length (solution_steps lesson_4_3) /\
  last (solution_steps lesson_4_3) = Some (answer lesson_4_3) /\
  In lesson_1_1 all_lessons /\
  nondecreasing (step_lengths lesson_1_1) = true.
Proof.
  assert (H43 : In lesson_4_3 all_lessons).
  { unfold all_lessons, all_lessons_of. simpl. auto 20. }
  assert (H11 : In lesson_1_1 all_lessons).
  { unfold all_lessons, all_lessons_of. simpl. auto. }
  destruct (solution_steps_end_in_answer lesson_4_3 H43) as (A & B & _ & _).
  destruct (solution_steps_end_in_answer lesson_1_1 H11) as (_ & _ & _ & D).
  split; [exact H43 |]. split; [exact A |]. split; [exact B |]. split; [exact H11 |].
  apply D; vm_compute; discriminate.
Defined.

(** ** Answer normalisation *)

(** C4, at the failing input.  A blank before the terminator survives the
    first normalisation and is removed by the second. *)
Theorem normalize_sql_not_idempotent :
  normalize_sql "SELECT 1 ;" = "select 1 " /\
  normalize_sql (normalize_sql "SELECT 1 ;") = "select 1" /\
  normalize_sql (normalize_sql "SELECT 1 ;") <> normalize_sql "SELECT 1 ;".
Proof. repeat split; try reflexivity. vm_compute. discriminate. Qed.

(** ** Runs on the demonstration database *)

(** C2, at the failing input.  [skip] on the last lesson, 4.3, adds its id
    to the completed lessons in memory and writes nothing to the progress
    file; a second [skip] changes nothing more, and again writes
    nothing. *)
Theorem skip_on_last_lesson_saves_nothing :
  let first := demo "skip" Demo.at_last_lesson Demo.seeded in
  let second := demo "skip" (coach first) (database first) in
  get_next_lesson_id "4.3" = None /\
  completed_lessons (progress Demo.at_last_lesson) = ["1.1"] /\
  completed_lessons (progress (coach first)) = ["1.1"; "4.3"] /\
  current_lesson (progress (coach first)) = "4.3" /\
  effects first = [Print (SuccessBox AllCompleted)] /\
  saved (effects first) = [] /\
  coach second = coach first /\
  saved (effects second) = [].
Proof. repeat split; reflexivity. Qed.

(** With a next lesson the same command does write the file. *)
Example skip_with_next_lesson_saves :
  let r := demo "skip" Demo.fresh Demo.seeded in
  saved (effects r) = [progress (coach r)] /\
  current_lesson (progress (coach r)) = "1.2" /\
  completed_lessons (progress (coach r)) = ["1.1"].
Proof. repeat split; reflexivity. Qed.

(** C1, counterexample.  Lesson 1.1 is current.  Its literal answer
    entered without [run] is executed and its result printed, with no
    success box; [run] with the answer on a database without the table
    prints the error only; and [run] with the answer and one more blank,
    put where the answer has no whitespace (before the comma, or before
    the final semicolon), prints the result with no success box. *)
Lemma answer_not_always_matched :
  let bare := demo (answer lesson_1_1) Demo.fresh Demo.seeded in
  let failed := demo ("run " +:+ answer lesson_1_1) Demo.fresh [] in
  let comma := "SELECT campaign_name , bidding_strategy FROM campaigns;" in
  let ending := "SELECT campaign_name, bidding_strategy FROM campaigns ;" in
  let executed :=
    [Print (Line "Query executed successfully!"); Print (Table (Some []) (Some []))] in
  current_lesson (progress Demo.fresh) = lesson_id lesson_1_1 /\
  answer lesson_1_1 = "SELECT campaign_name, bidding_strategy FROM campaigns;" /\
  classify (strip (answer lesson_1_1)) = CSql (answer lesson_1_1) /\
  fst (Demo.execute_sql (answer lesson_1_1) Demo.seeded) = ExecOk [] [] /\
  effects bare = [Print (Line "Query executed!"); Print (Table (Some []) (Some []))] /\
  fst (Demo.execute_sql (answer lesson_1_1) []) = ExecErr "no such table" /\
  effects failed = [Print (ErrorBox ("SQL Error:" +:+ nl +:+ "no such table"))] /\
  fst (Demo.execute_sql comma Demo.seeded) = ExecOk [] [] /\
  effects (demo ("run " +:+ comma) Demo.fresh Demo.seeded) = executed /\
  fst (Demo.execute_sql ending Demo.seeded) = ExecOk [] [] /\
  effects (demo ("run " +:+ ending) Demo.fresh Demo.seeded) = executed.
Proof. repeat split; reflexivity. Qed.

(** C3, counterexample.  On a first run, [hint] then [reset]: the current
    lesson is 1.1 throughout, and the hint cursor goes from 1 back to 0. *)
Lemma reset_lowers_hint_cursor :
  let hinted := demo "hint" Demo.fresh Demo.seeded in
  let after := demo "reset" (coach hinted) (database hinted) in
  history Demo.execute_sql ["hint"; "reset"] Demo.fresh Demo.seeded
  = [(Demo.fresh, "hint", hinted); (coach hinted, "reset", after)] /\
  current_lesson (progress (coach hinted)) = "1.1" /\
  current_lesson (progress (coach after)) = "1.1" /\
  current_hint (coach hinted) = 1 /\
  current_hint (coach after) = 0.
Proof. repeat split; reflexivity. Qed.

(** Four hints on lesson 1.1, which has three: the fourth leaves the
    cursor at 3. *)
Lemma hint_cursor_over_commands_witness :
  let third := coach (demo "hint" (coach (demo "hint" (coach (demo "hint"
                 Demo.fresh Demo.seeded)) Demo.seeded)) Demo.seeded) in
  let fourth := demo "hint" third Demo.seeded in
  current_hint third = 3 /\
  coach fourth = third /\ continue fourth = true /\
  effects fourth = [Print (Line "No more hints! Type 'answer' to see the solution.")].
Proof.
  cbv zeta.
  pose proof (hint_cursor_over_commands Demo.execute_sql
                ["hint"; "hint"; "hint"; "hint"] Demo.fresh Demo.seeded) as H.
  apply Forall_inv_tail, Forall_inv_tail, Forall_inv_tail, Forall_inv in H.
  destruct H as (_ & _ & _ & H).
  split; [reflexivity |].
  apply (H lesson_1_1 phase_1); [reflexivity | reflexivity | vm_compute; lia].
Defined.

(** C6, counterexample.  With the unknown lesson id 9.9 in the progress
    file, [hint], [next], [answer] and [skip] print nothing at all. *)
Lemma unresolved_lesson_reports_nothing :
  get_lesson_by_id (current_lesson (progress Demo.corrupted)) = None /\
  effects (demo "hint" Demo.corrupted Demo.seeded) = [] /\
  effects (demo "next" Demo.corrupted Demo.seeded) = [] /\
  effects (demo "answer" Demo.corrupted Demo.seeded) = [] /\
  effects (demo "skip" Demo.corrupted Demo.seeded) = [].
Proof. repeat split; reflexivity. Qed.

Lemma unresolved_lesson_is_silent_witness :
  get_lesson_by_id (current_lesson (progress Demo.corrupted)) = None /\
  demo " Next " Demo.corrupted Demo.seeded = proceed Demo.corrupted Demo.seeded [] /\
  demo "cls" Demo.corrupted Demo.seeded
  = proceed Demo.corrupted Demo.seeded
      [ClearScreen; Print Banner; Print (ErrorBox "Lesson not found!")].
Proof.
  destruct (unresolved_lesson_is_silent Demo.execute_sql " Next " Demo.corrupted Demo.seeded eq_refl)
    as (Hsilent & _ & _).
  destruct (unresolved_lesson_is_silent Demo.execute_sql "cls" Demo.corrupted Demo.seeded eq_refl)
    as (_ & Hshown & _).
  split; [reflexivity |]. split.
  - apply Hsilent. vm_compute. auto 10.
  - apply Hshown. right. reflexivity.
Defined.

(** C7, at the failing input.  [run PRAGMA hard_heap_limit=1] makes
    SQLite raise [MemoryError], whose message is empty, and [execute_sql]
    returns that empty message as the error.  The command then prints
    the success line and an empty table, and no error at all; with an
    executor in that state the answer of the lesson even gets the success
    box, and a line taken as SQL is reported as executed.  The query is
    still recorded, nothing else changes and the loop goes on. *)
Lemma empty_error_message_reads_as_success :
  let sql := "PRAGMA hard_heap_limit=1" in
  let r := handle_command Demo.heap_exhausted ("run " +:+ sql) Demo.fresh Demo.seeded in
  let answered :=
    handle_command Demo.heap_exhausted ("run " +:+ answer lesson_1_1) Demo.fresh Demo.seeded in
  let bare := handle_command Demo.heap_exhausted "select 1" Demo.fresh Demo.seeded in
  fst (Demo.heap_exhausted sql Demo.seeded) = ExecErr EmptyString /\
  is_error (fst (Demo.heap_exhausted sql Demo.seeded)) = false /\
  effects r = [Print (Line "Query executed successfully!"); Print (Table None None)] /\
  (forall text, ~ In (Print (ErrorBox text)) (effects r)) /\
  effects answered =
    [Print (Line "Query executed successfully!"); Print (Table None None);
     Print (SuccessBox (Matched "Try: Show only SEARCH type campaigns (you'll need WHERE)"))] /\
  effects bare = [Print (Line "Query executed!"); Print (Table None None)] /\
  last_query (coach r) = Some sql /\ progress (coach r) = progress Demo.fresh /\
  continue r = true.
Proof.
  cbv zeta. repeat split; try reflexivity.
  intros text H. vm_compute in H. destruct H as [H | [H | []]]; discriminate.
Qed.

(** The same commands with an error that has a message. *)
Lemma query_error_is_contained_witness :
  let explicit := demo "run SELECT * FROM nowhere " Demo.fresh Demo.seeded in
  let bare := demo " delete from nowhere" Demo.fresh Demo.seeded in
  fst (Demo.execute_sql "SELECT * FROM nowhere" Demo.seeded) = ExecErr "no such table" /\
  last_query (coach explicit) = Some "SELECT * FROM nowhere" /\
  progress (coach explicit) = progress Demo.fresh /\
  effects explicit = [Print (ErrorBox ("SQL Error:" +:+ nl +:+ "no such table"))] /\
  last_query (coach bare) = Some "delete from nowhere" /\
  effects bare = [Print (ErrorBox ("SQL Error:" +:+ nl +:+ "no such table"))].
Proof.
  cbv zeta.
  destruct (query_error_is_contained Demo.execute_sql "run SELECT * FROM nowhere "
              Demo.fresh Demo.seeded) as [H _].
  destruct (H eq_refl) as (Hq & Hp & _ & _ & _ & _ & _ & He).
  destruct (query_error_is_contained Demo.execute_sql " delete from nowhere"
              Demo.fresh Demo.seeded) as [_ H'].
  destruct (H' "delete from nowhere" eq_refl) as (_ & Hq' & _ & _ & _ & _ & _ & _ & He').
  split; [reflexivity |].
  split; [exact Hq |]. split; [exact Hp |].
  split; [apply (He "no such table"); [reflexivity | discriminate] |].
  split; [exact Hq' |].
  apply (He' "no such table"); [reflexivity | discriminate].
Defined.

(** C8, counterexample.  After [run select*from campaigns] the last query
    contains the keyword [select], in lower case, but [explain] lists FROM
    only: [select] is not followed by a blank. *)
Lemma explain_misses_keyword_without_blank :
  let ran := demo "run select*from campaigns" Demo.fresh Demo.seeded in
  let r := demo "explain" (coach ran) (database ran) in
  last_query (coach ran) = Some "select*from campaigns" /\
  contains "select" (lower "select*from campaigns") = true /\
  clauses_found spec_keywords "select*from campaigns" = [FROM; SELECT] /\
  effects r = [Print (ExecutionOrder [(1, FROM)])].
Proof. repeat split; reflexivity. Qed.

Lemma explain_lists_probed_clauses_witness :
  let asked := set_last_query Demo.fresh (Some "WITH x AS (SELECT a FROM t) SELECT DISTINCT a FROM x LIMIT 3") in
  let r := demo "Explain" asked Demo.seeded in
  lower (strip "Explain") = "explain" /\
  coach r = asked /\
  effects r = [Print (ExecutionOrder [(1, CTE); (2, FROM); (3, SELECT); (4, DISTINCT); (5, LIMIT)])].
Proof.
  cbv zeta. split; [reflexivity |].
  destruct (explain_lists_probed_clauses Demo.execute_sql "Explain"
              (set_last_query Demo.fresh
                 (Some "WITH x AS (SELECT a FROM t) SELECT DISTINCT a FROM x LIMIT 3"))
              Demo.seeded eq_refl) as (Hc & _ & _ & He).
  split; [exact Hc | exact He].
Defined.

Lemma clear_resets_cursors_witness :
  let hinted := coach (demo "hint" Demo.fresh Demo.seeded) in
  let r := demo " CLS" hinted Demo.seeded in
  current_hint hinted = 1 /\
  lower (strip " CLS") = "cls" /\
  current_hint (coach r) = 0 /\ current_step (coach r) = 0 /\
  progress (coach r) = progress hinted /\ saved (effects r) = [].
Proof.
  cbv zeta. split; [reflexivity |]. split; [reflexivity |].
  destruct (clear_resets_cursors Demo.execute_sql " CLS"
              (coach (demo "hint" Demo.fresh Demo.seeded)) Demo.seeded)
    as (H1 & H2 & H3 & H4 & _).
  - apply reach_step, reach_init.
  - right. reflexivity.
  - split; [exact H1 |]. split; [exact H2 |]. split; [exact H3 | exact H4].
Defined.

(** A run that saves three times: by [skip], by [lesson 1.1] and at the
    interrupt. *)
Lemma hint_counts_never_written_witness :
  let file := {| current_lesson := "1.1"; completed_lessons := [];
                 hint_counts := {[ "1.1" := 2%Z ]}; started_at := "2024-01-01T00:00:00" |} in
  let result := run Demo.execute_sql
                    [Entered "hint"; Entered "skip"; Entered "lesson 1.1"; KeyboardInterrupt]
                    (init (Some file) "2024-02-01T00:00:00") Demo.seeded in
  length (saved (snd result)) = 3 /\
  Forall (fun p => hint_counts p = {[ "1.1" := 2%Z ]}) (saved (snd result)).
Proof.
  cbv zeta. split; [reflexivity |].
  exact (proj1 (hint_counts_never_written Demo.execute_sql
                  (Some {| current_lesson := "1.1"; completed_lessons := [];
                           hint_counts := {[ "1.1" := 2%Z ]};
                           started_at := "2024-01-01T00:00:00" |})
                  "2024-02-01T00:00:00"
                  [Entered "hint"; Entered "skip"; Entered "lesson 1.1"; KeyboardInterrupt]
                  Demo.seeded)).
Defined.

(** * Further properties of the code *)

(** ** Facts about the string operations *)

Lemma lower_char_idem (c : ascii) : lower_char (lower_char c) = lower_char c.
Proof. destruct c as [[] [] [] [] [] [] [] []]; reflexivity. Qed.

Lemma isspace_lower_char (c : ascii) : isspace (lower_char c) = isspace c.
Proof. destruct c as [[] [] [] [] [] [] [] []]; reflexivity. Qed.

Lemma semicolon_lower_char (c : ascii) : is_semicolon (lower_char c) = is_semicolon c.
Proof. destruct c as [[] [] [] [] [] [] [] []]; reflexivity. Qed.

Lemma lower_char_space (c : ascii) : isspace c = true -> lower_char c = c.
Proof. destruct c as [[] [] [] [] [] [] [] []]; try reflexivity; discriminate. Qed.

Lemma lower_idem (s : string) : lower (lower s) = lower s.
Proof. induction s as [| c s IH]; simpl; [reflexivity |]. now rewrite lower_char_idem, IH. Qed.

Lemma lower_length (s : string) : String.length (lower s) = String.length s.
Proof. induction s as [| c s IH]; simpl; congruence. Qed.

Lemma lower_app (a b : string) : lower (a +:+ b) = lower a +:+ lower b.
Proof. induction a as [| c a IH]; simpl; [reflexivity |]. now rewrite IH. Qed.

Lemma lstrip_by_lower (p : ascii -> bool) (s : string) :
  (forall c, p (lower_char c) = p c) ->
  lstrip_by p (lower s) = lower (lstrip_by p s).
Proof.
  intros Hp. induction s as [| c s IH]; simpl; [reflexivity |].
  rewrite Hp. destruct (p c); [exact IH | reflexivity].
Qed.

Lemma rstrip_by_lower (p : ascii -> bool) (s : string) :
  (forall c, p (lower_char c) = p c) ->
  rstrip_by p (lower s) = lower (rstrip_by p s).
Proof.
  intros Hp. induction s as [| c s IH]; simpl; [reflexivity |].
  rewrite IH, Hp. destruct (rstrip_by p s); simpl; [destruct (p c) |]; reflexivity.
Qed.

Lemma strip_lower (s : string) : strip (lower s) = lower (strip s).
Proof.
  unfold strip.
  rewrite (lstrip_by_lower _ _ isspace_lower_char).
  apply rstrip_by_lower, isspace_lower_char.
Qed.

(** *** Stripping at the right end *)

Lemma rstrip_by_fixed (p : ascii -> bool) (s : string) :
  ends_in p s = false -> rstrip_by p s = s.
Proof.
  induction s as [| c s IH]; simpl; [reflexivity |].
  destruct s as [| c' s'].
  - simpl. intros ->. reflexivity.
  - intros H. rewrite (IH H). reflexivity.
Qed.

Lemma ends_in_rstrip_by (p : ascii -> bool) (s : string) :
  ends_in p (rstrip_by p s) = false.
Proof.
  induction s as [| c s IH]; simpl; [reflexivity |].
  destruct (rstrip_by p s) as [| c' r] eqn:E.
  - destruct (p c) eqn:Hc; simpl; [reflexivity | exact Hc].
  - exact IH.
Qed.

Lemma rstrip_by_idem (p : ascii -> bool) (s : string) :
  rstrip_by p (rstrip_by p s) = rstrip_by p s.
Proof. apply rstrip_by_fixed, ends_in_rstrip_by. Qed.

Lemma rstrip_by_empty (p : ascii -> bool) (s : string) :
  rstrip_by p s = EmptyString <-> all_chars p s = true.
Proof.
  induction s as [| c s IH]; simpl; [tauto |].
  destruct (rstrip_by p s) as [| c' r] eqn:E.
  - destruct (p c); simpl; [tauto | split; discriminate].
  - split; [discriminate |]. intros H. apply andb_true_iff in H as [_ H].
    apply IH in H. discriminate.
Qed.

Lemma rstrip_by_length (p : ascii -> bool) (s : string) :
  String.length (rstrip_by p s) <= String.length s.
Proof.
  induction s as [| c s IH]; simpl; [lia |].
  destruct (rstrip_by p s); [destruct (p c) |]; simpl in *; lia.
Qed.

Lemma rstrip_by_shorter (p : ascii -> bool) (s : string) :
  ends_in p s = true -> String.length (rstrip_by p s) < String.length s.
Proof.
  induction s as [| c s IH]; simpl; [discriminate |].
  destruct s as [| c' s'].
  - simpl. intros ->. simpl. lia.
  - intros H. specialize (IH H).
    destruct (rstrip_by p (String c' s')); [destruct (p c) |]; simpl in *; lia.
Qed.

Lemma starts_in_rstrip_by (p q : ascii -> bool) (s : string) :
  starts_in q s = false -> starts_in q (rstrip_by p s) = false.
Proof.
  destruct s as [| c s]; simpl; [reflexivity |].
  intros H. destruct (rstrip_by p s); [destruct (p c) |]; simpl; auto.
Qed.

(** *** Stripping at the left end *)

Lemma starts_in_lstrip_by (p : ascii -> bool) (s : string) :
  starts_in p (lstrip_by p s) = false.
Proof.
  induction s as [| c s IH]; simpl; [reflexivity |].
  destruct (p c) eqn:E; [exact IH | simpl; exact E].
Qed.

Lemma lstrip_by_fixed (p : ascii -> bool) (s : string) :
  starts_in p s = false -> lstrip_by p s = s.
Proof. destruct s as [| c s]; simpl; [reflexivity |]. intros ->. reflexivity. Qed.

Lemma lstrip_by_length (p : ascii -> bool) (s : string) :
  String.length (lstrip_by p s) <= String.length s.
Proof.
  induction s as [| c s IH]; simpl; [lia |].
  destruct (p c); simpl; lia.
Qed.

Lemma lstrip_by_empty (p : ascii -> bool) (s : string) :
  all_chars p s = true -> lstrip_by p s = EmptyString.
Proof.
  induction s as [| c s IH]; simpl; [reflexivity |].
  intros H. apply andb_true_iff in H as [-> H]. auto.
Qed.

Lemma strip_blank (s : string) : all_chars isspace s = true -> strip s = EmptyString.
Proof. intros H. unfold strip. now rewrite (lstrip_by_empty _ _ H). Qed.

Lemma strip_shape (s : string) :
  starts_in isspace (strip s) = false /\ ends_in isspace (strip s) = false.
Proof.
  unfold strip. split.
  - apply starts_in_rstrip_by, starts_in_lstrip_by.
  - apply ends_in_rstrip_by.
Qed.

Lemma strip_fixed (s : string) :
  starts_in isspace s = false -> ends_in isspace s = false -> strip s = s.
Proof.
  intros H1 H2. unfold strip. rewrite (lstrip_by_fixed _ _ H1). now apply rstrip_by_fixed.
Qed.

Lemma strip_idem (s : string) : strip (strip s) = strip s.
Proof. destruct (strip_shape s). now apply strip_fixed. Qed.

(** *** Collapsing whitespace *)

Lemma sub_ws_runs_shape (s : string) (in_run : bool) :
  single_spaced (sub_ws_runs in_run s) = true /\
  (in_run = true -> starts_in isspace (sub_ws_runs in_run s) = false).
Proof.
  revert in_run. induction s as [| c s IH]; intros in_run; simpl; [auto |].
  destruct (isspace c) eqn:Hc.
  - destruct in_run.
    + apply IH.
    + destruct (IH true) as [H1 H2]. split; [| discriminate].
      simpl. rewrite H1, (H2 eq_refl). reflexivity.
  - destruct (IH false) as [H1 _]. simpl. rewrite Hc, H1. auto.
Qed.

Lemma sub_ws_runs_fixed (s : string) (in_run : bool) :
  single_spaced s = true ->
  (in_run = true -> starts_in isspace s = false) ->
  sub_ws_runs in_run s = s.
Proof.
  revert in_run. induction s as [| c s IH]; intros in_run; simpl; [reflexivity |].
  intros H Hrun. apply andb_true_iff in H as [Hc Hs].
  destruct (isspace c) eqn:Ec.
  - apply andb_true_iff in Hc as [Hb Hn].
    apply Ascii.eqb_eq in Hb. subst c.
    destruct in_run; [specialize (Hrun eq_refl); discriminate |].
    f_equal. apply IH; [exact Hs |]. intros _. now apply negb_true_iff.
  - f_equal. apply IH; [exact Hs | discriminate].
Qed.

Lemma sub_ws_runs_length (s : string) (in_run : bool) :
  String.length (sub_ws_runs in_run s) <= String.length s.
Proof.
  revert in_run. induction s as [| c s IH]; intros in_run; simpl; [lia |].
  destruct (isspace c); [destruct in_run |]; simpl;
    [specialize (IH true) | specialize (IH true) | specialize (IH false)]; lia.
Qed.

Lemma sub_ws_runs_lower (s : string) (in_run : bool) :
  lower (sub_ws_runs in_run s) = sub_ws_runs in_run (lower s).
Proof.
  revert in_run. induction s as [| c s IH]; intros in_run; simpl; [reflexivity |].
  rewrite isspace_lower_char.
  destruct (isspace c); [destruct in_run |]; simpl; now rewrite IH.
Qed.

Lemma starts_in_collapse (s : string) :
  starts_in isspace s = false -> starts_in isspace (collapse_whitespace s) = false.
Proof.
  unfold collapse_whitespace. destruct s as [| c s]; simpl; [reflexivity |].
  intros Hc. rewrite Hc. simpl. exact Hc.
Qed.

Lemma sub_ws_runs_nonempty (c : ascii) (s : string) :
  sub_ws_runs false (String c s) <> EmptyString.
Proof. simpl. destruct (isspace c); discriminate. Qed.

(** A character that is no whitespace ends the collapsed string only if it
    ends the string. *)
Lemma ends_in_sub_ws_runs (q : ascii -> bool) (s : string) (in_run : bool) :
  (forall c, isspace c = true -> q c = false) ->
  ends_in q s = false -> ends_in q (sub_ws_runs in_run s) = false.
Proof.
  intros Hq. revert in_run. induction s as [| c s IH]; intros in_run; [reflexivity |].
  destruct s as [| c' s'].
  - simpl. intros Hc.
    destruct (isspace c) eqn:Ec; [destruct in_run |]; simpl; auto.
  - intros H. change (ends_in q (String c' s') = false) in H.
    change (sub_ws_runs in_run (String c (String c' s')))
      with (if isspace c
            then (if in_run then sub_ws_runs true (String c' s')
                  else String " "%char (sub_ws_runs true (String c' s')))
            else String c (sub_ws_runs false (String c' s'))).
    destruct (isspace c) eqn:Ec; [destruct in_run |].
    + apply IH, H.
    + specialize (IH true H).
      destruct (sub_ws_runs true (String c' s')) eqn:E; [simpl; apply Hq; reflexivity |].
      exact IH.
    + specialize (IH false H).
      destruct (sub_ws_runs false (String c' s')) eqn:E;
        [exfalso; exact (sub_ws_runs_nonempty _ _ E) |].
      exact IH.
Qed.

Lemma ends_in_space_blank (s : string) :
  single_spaced s = true -> ends_in isspace s = ends_in is_blank s.
Proof.
  induction s as [| c s IH]; simpl; [reflexivity |].
  intros H. apply andb_true_iff in H as [Hc Hs].
  destruct s as [| c' s']; [| exact (IH Hs)].
  destruct (isspace c) eqn:Ec.
  - apply andb_true_iff in Hc as [Hb _]. apply Ascii.eqb_eq in Hb. subst c. reflexivity.
  - unfold is_blank. destruct (Ascii.eqb_spec " "%char c) as [<- |]; [discriminate | reflexivity].
Qed.

(** *** Normalisation *)

Lemma normalize_sql_normal (sql : string) :
  let r := normalize_sql sql in
  lower r = r /\ single_spaced r = true /\
  starts_in isspace r = false /\ ends_in is_semicolon r = false.
Proof.
  cbv zeta. unfold normalize_sql, collapse_whitespace, rstrip_semicolons.
  change (Ascii.eqb ";"%char) with is_semicolon.
  repeat split.
  - rewrite sub_ws_runs_lower.
    rewrite <- (rstrip_by_lower _ _ semicolon_lower_char), <- strip_lower, lower_idem.
    reflexivity.
  - apply sub_ws_runs_shape.
  - apply starts_in_collapse, starts_in_rstrip_by, strip_shape.
  - apply ends_in_sub_ws_runs.
    + intros c. destruct c as [[] [] [] [] [] [] [] []]; try reflexivity; discriminate.
    + apply ends_in_rstrip_by.
Qed.

Lemma normalize_sql_fixed (r : string) :
  lower r = r -> single_spaced r = true -> starts_in isspace r = false ->
  ends_in is_semicolon r = false -> ends_in is_blank r = false ->
  normalize_sql r = r.
Proof.
  intros Hl Hs Hb He Hk. unfold normalize_sql, collapse_whitespace, rstrip_semicolons.
  change (Ascii.eqb ";"%char) with is_semicolon.
  rewrite Hl, strip_fixed; [| exact Hb | now rewrite ends_in_space_blank].
  rewrite rstrip_by_fixed by exact He.
  apply sub_ws_runs_fixed; [exact Hs | discriminate].
Qed.

Lemma normalize_sql_shorter (r : string) :
  starts_in isspace r = false -> ends_in isspace r = true ->
  String.length (normalize_sql r) < String.length r.
Proof.
  intros Hb He. unfold normalize_sql, collapse_whitespace, rstrip_semicolons.
  eapply Nat.le_lt_trans; [apply sub_ws_runs_length |].
  eapply Nat.le_lt_trans; [apply rstrip_by_length |].
  rewrite strip_lower, lower_length. unfold strip.
  rewrite lstrip_by_fixed by exact Hb. now apply rstrip_by_shorter.
Qed.

(** X1.  What [normalize_sql] returns is in lower case, has no whitespace
    but single blanks, does not begin with a blank, does not end with a
    semicolon and is not longer than the query in lower case: after
    [lower] every step removes characters or puts one for several. *)
Theorem normalize_sql_shape (sql : string) :
  let r := normalize_sql sql in
  lower r = r /\ single_spaced r = true /\
  starts_in isspace r = false /\ ends_in is_semicolon r = false /\
  String.length r <= String.length (lower sql).
Proof.
  cbv zeta. destruct (normalize_sql_normal sql) as (Hl & Hs & Hb & He).
  repeat (split; [assumption |]).
  unfold normalize_sql, collapse_whitespace, rstrip_semicolons, strip.
  eapply Nat.le_trans; [apply sub_ws_runs_length |].
  eapply Nat.le_trans; [apply rstrip_by_length |].
  eapply Nat.le_trans; [apply rstrip_by_length |].
  apply lstrip_by_length.
Qed.

(** X2.  Normalising twice gives the same as normalising once exactly
    when the first result does not end with a blank. *)
Theorem normalize_sql_idempotent_iff (sql : string) :
  normalize_sql (normalize_sql sql) = normalize_sql sql
  <-> ends_in is_blank (normalize_sql sql) = false.
Proof.
  destruct (normalize_sql_normal sql) as (Hl & Hs & Hb & He). split.
  - intros Hfix. destruct (ends_in is_blank (normalize_sql sql)) eqn:Hk; [| reflexivity].
    exfalso. rewrite <- (ends_in_space_blank _ Hs) in Hk.
    pose proof (normalize_sql_shorter _ Hb Hk) as Hlt. rewrite Hfix in Hlt. lia.
  - intros Hk. now apply normalize_sql_fixed.
Qed.

Lemma lstrip_by_app_all (p : ascii -> bool) (pre s : string) :
  all_chars p pre = true -> lstrip_by p (pre +:+ s) = lstrip_by p s.
Proof.
  induction pre as [| c pre IH]; simpl; [reflexivity |].
  intros H. apply andb_true_iff in H as [-> H]. auto.
Qed.

Lemma rstrip_by_app_all (p : ascii -> bool) (s post : string) :
  all_chars p post = true -> rstrip_by p (s +:+ post) = rstrip_by p s.
Proof.
  intros H. induction s as [| c s IH]; simpl.
  - now apply rstrip_by_empty.
  - now rewrite IH.
Qed.

Lemma strip_app_all (s post : string) :
  all_chars isspace post = true -> strip (s +:+ post) = strip s.
Proof.
  intros H. unfold strip. induction s as [| c s IH].
  - change (EmptyString +:+ post) with post.
    now rewrite (lstrip_by_empty _ _ H).
  - change (String c s +:+ post) with (String c (s +:+ post)).
    change (lstrip_by isspace (String c (s +:+ post)))
      with (if isspace c then lstrip_by isspace (s +:+ post) else String c (s +:+ post)).
    change (lstrip_by isspace (String c s))
      with (if isspace c then lstrip_by isspace s else String c s).
    destruct (isspace c); [exact IH |].
    exact (rstrip_by_app_all isspace (String c s) post H).
Qed.

Lemma strip_padded (pre s post : string) :
  all_chars isspace pre = true -> all_chars isspace post = true ->
  strip (pre +:+ s +:+ post) = strip s.
Proof.
  intros Hpre Hpost. unfold strip at 1. rewrite (lstrip_by_app_all _ _ _ Hpre).
  exact (strip_app_all s post Hpost).
Qed.

Lemma all_chars_lower (s : string) :
  all_chars isspace s = true -> lower s = s.
Proof.
  induction s as [| c s IH]; simpl; [reflexivity |].
  intros H. apply andb_true_iff in H as [Hc H].
  now rewrite (lower_char_space _ Hc), IH.
Qed.

(** X3.  Whitespace around a query and the case of its letters do not
    change what [normalize_sql] returns, hence not whether it matches the
    answer. *)
Theorem normalize_sql_ignores_padding_and_case (pre a post b : string) :
  all_chars isspace pre = true -> all_chars isspace post = true ->
  lower a = lower b ->
  normalize_sql (pre +:+ a +:+ post) = normalize_sql b.
Proof.
  intros Hpre Hpost Hab. unfold normalize_sql.
  rewrite !lower_app, (all_chars_lower _ Hpre), (all_chars_lower _ Hpost), Hab.
  now rewrite (strip_padded _ _ _ Hpre Hpost).
Qed.

(** ** More on the branch a line takes *)

Lemma startswith_cons (a : ascii) (p s : string) :
  startswith (String a p) s = true ->
  exists s', s = String a s' /\ startswith p s' = true.
Proof.
  destruct s as [| b s]; [discriminate |].
  change (startswith (String a p) (String b s)) with (Ascii.eqb a b && startswith p s).
  intros H. apply andb_true_iff in H as [Ha H].
  apply Ascii.eqb_eq in Ha. subst b. eauto.
Qed.

Lemma classify_lesson (cmd : string) :
  startswith "lesson " (lower cmd) = true ->
  classify cmd = CLesson (strip (drop 7 cmd)).
Proof.
  intros H. unfold classify. cbv zeta.
  destruct cmd as [| c t]; [discriminate |].
  change (truthy (String c t)) with true. cbv iota beta.
  repeat (apply startswith_cons in H as (? & ? & H); subst).
  match goal with E : lower _ = _ |- _ => rewrite E end.
  reflexivity.
Qed.



Lemma classify_empty (cmd : string) : classify cmd = CEmpty <-> cmd = EmptyString.
Proof.
  split.
  - unfold classify. cbv zeta.
    destruct cmd; [reflexivity |]. simpl negb. cbv iota.
    repeat match goal with
           | |- context [if ?b then _ else _] => destruct b eqn:?
           end; discriminate.
  - intros ->. reflexivity.
Qed.

(** ** Lookups, in any curriculum *)

Lemma find_lesson_sound (id : string) (ls : list Lesson) (l : Lesson) :
  find_lesson id ls = Some l -> In l ls /\ lesson_id l = id.
Proof.
  induction ls as [| l0 ls IH]; simpl; [discriminate |].
  destruct (lesson_id l0 =? id)%string eqn:E.
  - intros [= <-]. apply String.eqb_eq in E. auto.
  - intros H. destruct (IH H). auto.
Qed.

Lemma find_lesson_None (id : string) (ls : list Lesson) :
  find_lesson id ls = None <-> ~ In id (map lesson_id ls).
Proof.
  split.
  - intros H Hin. exact (find_lesson_In _ _ Hin H).
  - induction ls as [| l0 ls IH]; simpl; [reflexivity |].
    intros Hn. destruct (lesson_id l0 =? id)%string eqn:E.
    + apply String.eqb_eq in E. tauto.
    + apply IH. tauto.
Qed.

Lemma get_lesson_in_sound (phases : list Phase) (id : string) :
  match get_lesson_in phases id with
  | Some (l, p) => In p phases /\ In l (lessons p) /\ lesson_id l = id
  | None => ~ In id (map lesson_id (all_lessons_of phases))
  end.
Proof.
  unfold all_lessons_of.
  induction phases as [| p ps IH]; simpl; [tauto |].
  destruct (find_lesson id (lessons p)) as [l |] eqn:E.
  - apply find_lesson_sound in E as [H1 H2]. auto.
  - destruct (get_lesson_in ps id) as [[l' p'] |].
    + destruct IH as (H1 & H2 & H3). auto.
    + rewrite map_app, in_app_iff. apply find_lesson_None in E. tauto.
Qed.

Lemma found_in_curriculum (id : string) (l : Lesson) (p : Phase) :
  get_lesson_by_id id = Some (l, p) -> In (lesson_id l) lesson_ids.
Proof.
  intros H. pose proof (get_lesson_in_sound CURRICULUM id) as S.
  unfold get_lesson_by_id in H. rewrite H in S. destruct S as (Hp & Hl & _).
  unfold lesson_ids, all_lessons, all_lessons_of.
  apply in_map, in_flat_map. eauto.
Qed.

(** X4.  [get_lesson_by_id], in any curriculum: a lesson that is returned
    has the id asked for and is a lesson of the phase returned with it,
    which is a phase of the curriculum; and nothing is returned exactly
    when no lesson has that id. *)
Theorem get_lesson_in_spec (phases : list Phase) (id : string) :
  (forall l p, get_lesson_in phases id = Some (l, p) ->
               In p phases /\ In l (lessons p) /\ lesson_id l = id) /\
  (get_lesson_in phases id = None <-> ~ In id (map lesson_id (all_lessons_of phases))).
Proof.
  pose proof (get_lesson_in_sound phases id) as S. split; [| split].
  - intros l p E. now rewrite E in S.
  - intros E. now rewrite E in S.
  - intros Hn. destruct (get_lesson_in phases id) as [[l p] |]; [| reflexivity].
    destruct S as (Hp & Hl & <-). exfalso. apply Hn.
    unfold all_lessons_of. apply in_map, in_flat_map. eauto.
Qed.

Section Navigation.

Context {Row DB : Type}.
Variable execute_sql : string -> DB -> exec_result Row * DB.

Local Abbreviation handle := (handle_command execute_sql).

Lemma goto_unknown_lesson (line : string) (self : SQLCoach) (db : DB) :
  startswith "lesson " (lower (strip line)) = true ->
  get_lesson_by_id (strip (drop 7 (strip line))) = None ->
  handle line self db =
    proceed self db
      [Print (ErrorBox ("Lesson '" +:+ strip (drop 7 (strip line))
                        +:+ "' not found. Use format like '1.2' or '3.1'"))].
Proof.
  intros Hw Hnone. unfold handle_command; cbv zeta.
  rewrite (classify_lesson _ Hw), Hnone. reflexivity.
Qed.

Lemma goto_known_lesson
  (line : string) (self : SQLCoach) (db : DB) (lesson : Lesson) (phase : Phase) :
  startswith "lesson " (lower (strip line)) = true ->
  get_lesson_by_id (strip (drop 7 (strip line))) = Some (lesson, phase) ->
  let r := handle line self db in
  let moved := set_current_lesson (progress self) (strip (drop 7 (strip line))) in
  coach r = {| progress := moved; current_hint := 0; current_step := 0;
               last_query := last_query self |} /\
  database r = db /\ continue r = true /\
  effects r =
    [SaveProgress moved; ClearScreen; Print Banner;
     Print (ProgressBar (length (completed_lessons (progress self))) get_total_lessons);
     Print (LessonView phase lesson)].
Proof.
  intros Hw Hfound. unfold handle_command; cbv zeta.
  rewrite (classify_lesson _ Hw), Hfound.
  rewrite (show_found (Row := Row) _ lesson phase); [| exact Hfound].
  repeat split; reflexivity.
Qed.

Lemma quit_outcome (line : string) (self : SQLCoach) (db : DB) :
  let r := handle line self db in
  continue r = false ->
  classify (strip line) = CQuit /\
  coach r = self /\ database r = db /\
  effects r = [SaveProgress (progress self);
               Print (Line "Progress saved! See you next time.")].
Proof.
  cbv zeta. unfold handle_command; cbv zeta.
  branches; simpl; try discriminate. auto.
Qed.

(** X9.  A line of whitespace only (or an empty line) prints nothing and
    changes nothing. *)
Theorem blank_line_is_ignored (line : string) (self : SQLCoach) (db : DB) :
  all_chars isspace line = true -> handle line self db = proceed self db [].
Proof.
  intros H. unfold handle_command; cbv zeta.
  rewrite (strip_blank _ H). reflexivity.
Qed.

(** X10.  A line that neither begins with [run] nor contains one of
    select, with, insert, update, delete never reaches the executor: the
    database is as before, and so is [last_query]. *)
Theorem executor_only_for_queries (line : string) (self : SQLCoach) (db : DB) :
  startswith "run " (lower (strip line)) = false ->
  looks_like_sql (lower (strip line)) = false ->
  let r := handle line self db in
  database r = db /\ last_query (coach r) = last_query self.
Proof.
  intros Hrun Hsql. cbv zeta. unfold handle_command; cbv zeta.
  destruct (classify (strip line)) eqn:Hc.
  2: { apply classify_CRun_inv in Hc as [Hc _]. congruence. }
  15: { apply classify_CSql_inv in Hc as (_ & Hc & _). congruence. }
  all: branches; simpl; auto.
Qed.

(** X7.  [lesson <id>], the word in any letter case: with an id that no
    lesson has, it reports the id as not found and changes nothing;
    with the id of a lesson it makes that lesson current, leaves the
    completed lessons as they are, puts both cursors at 0, writes the
    new progress to the file and shows the lesson. *)
Theorem goto_lesson (line : string) (self : SQLCoach) (db : DB) :
  startswith "lesson " (lower (strip line)) = true ->
  let id := strip (drop 7 (strip line)) in
  let r := handle line self db in
  match get_lesson_by_id id with
  | None =>
      r = proceed self db
            [Print (ErrorBox ("Lesson '" +:+ id
                              +:+ "' not found. Use format like '1.2' or '3.1'"))]
  | Some (lesson, phase) =>
      coach r = {| progress := set_current_lesson (progress self) id;
                   current_hint := 0; current_step := 0;
                   last_query := last_query self |} /\
      database r = db /\ continue r = true /\
      effects r =
        [SaveProgress (set_current_lesson (progress self) id); ClearScreen; Print Banner;
         Print (ProgressBar (length (completed_lessons (progress self))) get_total_lessons);
         Print (LessonView phase lesson)]
  end.
Proof.
  intros Hw. cbv zeta.
  destruct (get_lesson_by_id (strip (drop 7 (strip line)))) as [[lesson phase] |] eqn:E.
  - exact (goto_known_lesson line self db lesson phase Hw E).
  - exact (goto_unknown_lesson line self db Hw E).
Qed.


End Navigation.

Section Reveal.

Context {Row DB : Type}.
Variable execute_sql : string -> DB -> exec_result Row * DB.

Local Abbreviation handle := (handle_command execute_sql).

(** X12.  On a lesson that resolves, [k] times [hint] (or a synonym) print
    the hints from the cursor on, in order and numbered, until none is
    left, then the notice that no hint is left for every further
    request; the hint cursor ends at the number of hints at most, and
    nothing else changes. *)
Theorem hints_come_in_order
  (line : string) (k : nat) (self : SQLCoach) (db : DB) (lesson : Lesson) (phase : Phase) :
  lower (strip line) = "hint" \/ lower (strip line) = "stuck" \/ lower (strip line) = "help me" ->
  get_lesson_by_id (current_lesson (progress self)) = Some (lesson, phase) ->
  current_hint self <= length (hints lesson) ->
  let left := length (hints lesson) - current_hint self in
  main_loop execute_sql (repeat (Entered line) k) self db =
    (set_current_hint self (current_hint self + min k left), db,
     hint_boxes lesson (current_hint self) (min k left)
     ++ repeat (Print (Line "No more hints! Type 'answer' to see the solution.")) (k - left)).
Proof.
  intros Hw. revert self. induction k as [| k IH]; intros self Hfound Hle; cbv zeta.
  - simpl. rewrite Nat.add_0_r. destruct self; reflexivity.
  - simpl repeat. cbn [main_loop].
    unfold handle_command; cbv zeta. rewrite (classify_hint _ Hw), Hfound.
    destruct (current_hint self <? length (hints lesson))%nat eqn:Hlt.
    + apply Nat.ltb_lt in Hlt. cbn [continue coach database effects proceed].
      rewrite (IH (set_current_hint self (current_hint self + 1)));
        [| exact Hfound | simpl; lia].
      cbn [current_hint set_current_hint progress current_step last_query].
      replace (length (hints lesson) - (current_hint self + 1))
        with (length (hints lesson) - current_hint self - 1) by lia.
      destruct (length (hints lesson) - current_hint self) as [| m] eqn:Em; [lia |].
      replace (S m - 1) with m by lia.
      replace (min (S k) (S m)) with (S (min k m)) by lia.
      replace (S k - S m) with (k - m) by lia.
      f_equal; [f_equal |].
      * unfold set_current_hint. simpl. f_equal. lia.
      * unfold hint_boxes. cbn [seq map app].
        replace (S (current_hint self)) with (current_hint self + 1) by lia. reflexivity.
    + apply Nat.ltb_ge in Hlt. cbn [continue coach database effects proceed].
      rewrite (IH self Hfound Hle).
      replace (length (hints lesson) - current_hint self) with 0 by lia.
      rewrite !Nat.min_0_r, !Nat.sub_0_r. reflexivity.
Qed.

(** X13.  On a lesson that resolves, [k] times [next] print the solution
    steps from the cursor on, in order and numbered, until none is left,
    then the full answer for every further request; the step cursor
    ends at the number of steps at most, and nothing else changes. *)
Theorem steps_come_in_order
  (line : string) (k : nat) (self : SQLCoach) (db : DB) (lesson : Lesson) (phase : Phase) :
  lower (strip line) = "next" ->
  get_lesson_by_id (current_lesson (progress self)) = Some (lesson, phase) ->
  current_step self <= length (solution_steps lesson) ->
  let left := length (solution_steps lesson) - current_step self in
  main_loop execute_sql (repeat (Entered line) k) self db =
    (set_current_step self (current_step self + min k left), db,
     step_boxes lesson (current_step self) (min k left)
     ++ concat (repeat (full_solution lesson) (k - left))).
Proof.
  intros Hw. revert self. induction k as [| k IH]; intros self Hfound Hle; cbv zeta.
  - simpl. rewrite Nat.add_0_r. destruct self; reflexivity.
  - simpl repeat. cbn [main_loop].
    unfold handle_command; cbv zeta. rewrite (classify_next _ Hw), Hfound.
    destruct (current_step self <? length (solution_steps lesson))%nat eqn:Hlt.
    + apply Nat.ltb_lt in Hlt. cbn [continue coach database effects proceed].
      rewrite (IH (set_current_step self (current_step self + 1)));
        [| exact Hfound | simpl; lia].
      cbn [current_hint set_current_step progress current_step last_query].
      replace (length (solution_steps lesson) - (current_step self + 1))
        with (length (solution_steps lesson) - current_step self - 1) by lia.
      destruct (length (solution_steps lesson) - current_step self) as [| m] eqn:Em; [lia |].
      replace (S m - 1) with m by lia.
      replace (min (S k) (S m)) with (S (min k m)) by lia.
      replace (S k - S m) with (k - m) by lia.
      f_equal; [f_equal |].
      * unfold set_current_step. simpl. f_equal. lia.
      * unfold step_boxes. cbn [seq map app].
        replace (S (current_step self)) with (current_step self + 1) by lia. reflexivity.
    + apply Nat.ltb_ge in Hlt. cbn [continue coach database effects proceed].
      rewrite (IH self Hfound Hle).
      replace (length (solution_steps lesson) - current_step self) with 0 by lia.
      rewrite !Nat.min_0_r, !Nat.sub_0_r. reflexivity.
Qed.

Lemma handle_within_lesson (line : string) (self : SQLCoach) (db : DB) :
  within_lesson self -> within_lesson (coach (handle line self db)).
Proof.
  unfold within_lesson, handle_command; cbv zeta. intros Hin.
  branches; simpl in *; intros lesson phase Hf;
    try (split; lia);
    try (exact (Hin _ _ Hf)).
  all: try (rewrite Hf in *;
            match goal with H : Some _ = Some _ |- _ => inversion H; subst end;
            destruct (Hin _ _ eq_refl);
            repeat match goal with
                   | H : (_ <? _)%nat = true |- _ => apply Nat.ltb_lt in H
                   end; split; lia).
  all: congruence.
Qed.

(** X14.  In every coach a run can reach, the hint cursor is at most the
    number of hints of the current lesson and the step cursor at most
    the number of its solution steps. *)
Theorem cursors_within_lesson (self : SQLCoach) (lesson : Lesson) (phase : Phase) :
  reachable execute_sql self ->
  get_lesson_by_id (current_lesson (progress self)) = Some (lesson, phase) ->
  current_hint self <= length (hints lesson) /\
  current_step self <= length (solution_steps lesson).
Proof.
  intros Hr. revert lesson phase. change (within_lesson self).
  induction Hr as [file now | self _ IH | self line db _ IH].
  - intros l p _. simpl. lia.
  - destruct (show_current_lesson (Row := Row) self) as [shown out] eqn:E.
    apply show_inv in E. simpl.
    destruct E as [(l & p & Hf & -> & _) | (_ & -> & _)]; [| exact IH].
    intros l' p' _. simpl. lia.
  - now apply handle_within_lesson.
Qed.

End Reveal.

Section Runs.

Context {Row DB : Type}.
Variable execute_sql : string -> DB -> exec_result Row * DB.

Local Abbreviation handle := (handle_command execute_sql).

(** What every command keeps, a run keeps: [I] for the coach, [E] for
    what is printed and saved. *)
Lemma main_loop_invariant (I : SQLCoach -> Prop) (E : effect Row -> Prop) :
  (forall line self db, I self ->
     I (coach (handle line self db)) /\ Forall E (effects (handle line self db))) ->
  (forall self, I self -> E (SaveProgress (progress self))) ->
  E (Print (Line "Progress saved! Goodbye.")) ->
  forall inputs self db, I self ->
    let result := main_loop execute_sql inputs self db in
    I (fst (fst result)) /\ Forall E (snd result).
Proof.
  intros Hstep Hsave Hbye inputs.
  induction inputs as [| i rest IH]; intros self db HI; simpl.
  - split; [exact HI | constructor].
  - destruct i as [line | |]; simpl.
    + destruct (Hstep line self db HI) as [HI' HE].
      destruct (continue (handle line self db)).
      * specialize (IH (coach (handle line self db)) (database (handle line self db)) HI').
        destruct (main_loop _ _ _ _) as [[self' db'] out]. simpl in *.
        destruct IH as [IH1 IH2]. split; [exact IH1 |].
        apply Forall_app. split; assumption.
      * simpl. split; assumption.
    + split; [exact HI |]. repeat constructor; auto.
    + split; [exact HI | constructor].
Qed.

Lemma run_invariant (I : SQLCoach -> Prop) (E : effect Row -> Prop) :
  (forall line self db, I self ->
     I (coach (handle line self db)) /\ Forall E (effects (handle line self db))) ->
  (forall self, I self ->
     I (fst (show_current_lesson (Row := Row) self)) /\
     Forall E (snd (show_current_lesson (Row := Row) self))) ->
  (forall self, I self -> E (SaveProgress (progress self))) ->
  E (Print (Line "Progress saved! Goodbye.")) ->
  E ClearScreen -> E (Print Banner) -> E (Print Welcome) ->
  forall inputs self db, I self ->
    let result := run execute_sql inputs self db in
    I (fst (fst result)) /\ Forall E (snd result).
Proof.
  intros Hstep Hshow Hsave Hbye Hc Hb Hw inputs self db HI. cbv zeta. unfold run.
  destruct (Hshow self HI) as [HI' HE].
  destruct (show_current_lesson (Row := Row) self) as [shown out]. simpl in *.
  pose proof (main_loop_invariant I E Hstep Hsave Hbye inputs shown db HI') as H.
  destruct (main_loop _ _ _ _) as [[self' db'] rest]. simpl in *.
  destruct H as [H1 H2]. split; [exact H1 |].
  repeat constructor; auto. apply Forall_app. split; assumption.
Qed.

Lemma Forall_on_saves (P : Progress -> Prop) (out : list (effect Row)) :
  Forall (on_saves P) out <-> Forall P (saved out).
Proof.
  induction out as [| e out IH]; simpl; [split; constructor |].
  destruct e; simpl; rewrite ?Forall_cons_iff, IH; simpl; tauto.
Qed.

(** The one change a command makes to the completed lessons: [skip]
    appends the id of the current lesson when it is not yet there. *)
Lemma handle_completed (line : string) (self : SQLCoach) (db : DB) :
  let done := completed_lessons (progress self) in
  let done' := completed_lessons (progress (coach (handle line self db))) in
  done' = done \/
  exists lesson phase,
    get_lesson_by_id (current_lesson (progress self)) = Some (lesson, phase) /\
    mem (lesson_id lesson) done = false /\
    done' = done ++ [lesson_id lesson].
Proof.
  cbv zeta. unfold handle_command; cbv zeta.
  branches; simpl; auto; right; eauto.
Qed.

Lemma handle_extends (p0 : Progress) (line : string) (self : SQLCoach) (db : DB) :
  extends p0 (progress self) -> extends p0 (progress (coach (handle line self db))).
Proof.
  intros (Hs & Hh & (added & Ha & Hin) & Hnd).
  destruct (handle_frame execute_sql line self db) as (Hh' & Hs' & _).
  unfold extends. rewrite Hs', Hh'. repeat split; try assumption.
  - destruct (handle_completed line self db) as [-> | (l & ph & Hf & Hm & ->)].
    + exists added. auto.
    + exists (added ++ [lesson_id l]). rewrite Ha, <- app_assoc. split; [reflexivity |].
      apply Forall_app. split; [exact Hin |].
      constructor; [| constructor]. exact (found_in_curriculum _ _ _ Hf).
  - intros H0. specialize (Hnd H0).
    destruct (handle_completed line self db) as [-> | (l & ph & Hf & Hm & ->)]; [exact Hnd |].
    apply NoDup_app. repeat split; [exact Hnd | | apply NoDup_singleton].
    intros x Hx Hx'. apply list_elem_of_In in Hx, Hx'. destruct Hx' as [<- | []].
    apply mem_In in Hx. congruence.
Qed.

Lemma extends_refl (p : Progress) : extends p p.
Proof.
  repeat split; auto. exists []. rewrite app_nil_r. split; [reflexivity | constructor].
Qed.

(** X17.  Whatever is entered during a run, the progress at its end and
    every record written to the file keep the [started_at] and the
    [hint_counts] that were loaded, and their completed lessons are the
    loaded ones followed by ids of lessons of the curriculum, without a
    duplicate unless the loaded list had one. *)
Theorem completed_lessons_only_grow
  (file : option Progress) (now : string) (inputs : list input) (db : DB) :
  let loaded := load_progress file now in
  let result := run execute_sql inputs (init file now) db in
  extends loaded (progress (fst (fst result))) /\
  Forall (extends loaded) (saved (snd result)).
Proof.
  cbv zeta. rewrite <- Forall_on_saves.
  apply (run_invariant (fun self => extends (load_progress file now) (progress self))
                       (on_saves (extends (load_progress file now)))); simpl; auto.
  - intros line self db' H. split; [now apply handle_extends |].
    apply Forall_on_saves.
    destruct (handle_frame execute_sql line self db') as (_ & _ & Hsaved).
    eapply List.Forall_impl; [| exact Hsaved]. simpl. intros p ->. now apply handle_extends.
  - intros self H.
    destruct (show_current_lesson (Row := Row) self) as [shown out] eqn:E.
    apply show_inv in E. simpl.
    destruct E as [(l & p & _ & -> & ->) | (_ & -> & ->)]; simpl; split; auto;
      repeat constructor.
  - apply extends_refl.
Qed.

(** *** The progress bar *)

Lemma completed_ok_length (p : Progress) :
  completed_ok p -> length (completed_lessons p) <= get_total_lessons.
Proof.
  intros [Hnd Hin]. change get_total_lessons with (length lesson_ids).
  apply NoDup_incl_length.
  - clear Hin. induction Hnd as [| x l Hx _ IH]; constructor; [| exact IH].
    intros H. apply Hx. now apply list_elem_of_In.
  - intros x Hx. rewrite List.Forall_forall in Hin. now apply Hin.
Qed.

Lemma handle_completed_ok (line : string) (self : SQLCoach) (db : DB) :
  completed_ok (progress self) -> completed_ok (progress (coach (handle line self db))).
Proof.
  intros [Hnd Hin]. unfold completed_ok.
  destruct (handle_completed line self db) as [-> | (l & ph & Hf & Hm & ->)]; [auto |].
  split.
  - apply NoDup_app. repeat split; [exact Hnd | | apply NoDup_singleton].
    intros x Hx Hx'. apply list_elem_of_In in Hx, Hx'. destruct Hx' as [<- | []].
    apply mem_In in Hx. congruence.
  - apply Forall_app. split; [exact Hin |].
    constructor; [| constructor]. exact (found_in_curriculum _ _ _ Hf).
Qed.

Lemma handle_bars (line : string) (self : SQLCoach) (db : DB) :
  completed_ok (progress self) ->
  Forall bar_within_total (effects (handle line self db)).
Proof.
  intros Hok.
  pose proof (completed_ok_length _ Hok) as Hlen.
  pose proof (completed_ok_length _ (handle_completed_ok line self db Hok)) as Hlen'.
  revert Hlen'. unfold handle_command; cbv zeta.
  branches; cbn [effects proceed app]; intros Hlen';
    repeat (apply List.Forall_cons; [first [exact I | exact Hlen | exact Hlen'] |]);
    apply List.Forall_nil.
Qed.

(** X18.  When the completed lessons that were loaded are ids of lessons
    of the curriculum, each once, no progress bar printed during the run
    shows more completed lessons than there are lessons. *)
Theorem progress_bar_within_total
  (file : option Progress) (now : string) (inputs : list input) (db : DB) :
  completed_ok (load_progress file now) ->
  Forall bar_within_total (snd (run execute_sql inputs (init file now) db)).
Proof.
  intros Hok.
  apply (run_invariant (fun self => completed_ok (progress self)) bar_within_total);
    simpl; auto.
  - intros line self db' H. split; [now apply handle_completed_ok | now apply handle_bars].
  - intros self H. pose proof (completed_ok_length _ H) as Hlen.
    destruct (show_current_lesson (Row := Row) self) as [shown out] eqn:E.
    apply show_inv in E. simpl.
    destruct E as [(l & p & _ & -> & ->) | (_ & -> & ->)]; simpl; split; auto;
      repeat (apply List.Forall_cons; [first [exact I | exact Hlen] |]); apply List.Forall_nil.
Qed.

(** *** A current lesson that resolves *)

Lemma handle_resolves (line : string) (self : SQLCoach) (db : DB) :
  get_lesson_by_id (current_lesson (progress self)) <> None ->
  get_lesson_by_id (current_lesson (progress (coach (handle line self db)))) <> None /\
  Forall (fun e => e <> lesson_not_found) (effects (handle line self db)).
Proof.
  intros Hf. unfold handle_command, lesson_not_found; cbv zeta.
  branches; simpl in *; try congruence;
    try (exfalso; eapply next_lesson_resolves; eauto; fail);
    (split; [congruence |]); repeat constructor; try discriminate.
Qed.

(** X19.  When the current lesson that was loaded resolves, as on a first
    run, the current lesson resolves at the end of every run and
    "Lesson not found!" is never printed. *)
Theorem lesson_always_found
  (file : option Progress) (now : string) (inputs : list input) (db : DB) :
  get_lesson_by_id (current_lesson (load_progress file now)) <> None ->
  let result := run execute_sql inputs (init file now) db in
  get_lesson_by_id (current_lesson (progress (fst (fst result)))) <> None /\
  Forall (fun e => e <> lesson_not_found) (snd result).
Proof.
  intros Hf.
  apply (run_invariant
           (fun self => get_lesson_by_id (current_lesson (progress self)) <> None)
           (fun e => e <> lesson_not_found)); simpl; auto; try discriminate.
  - intros line self db'. apply handle_resolves.
  - intros self H.
    destruct (show_current_lesson (Row := Row) self) as [shown out] eqn:E.
    apply show_inv in E. simpl.
    destruct E as [(l & p & _ & -> & ->) | (Hn & -> & ->)]; [| congruence].
    simpl. split; [exact H |]. repeat constructor; discriminate.
Qed.

(** *** What is on file *)

(** A command either saves nothing and stays on its lesson, or saves,
    once, the progress it leaves. *)
Lemma handle_saved_cases (line : string) (self : SQLCoach) (db : DB) :
  let r := handle line self db in
  (saved (effects r) = [] /\
   current_lesson (progress (coach r)) = current_lesson (progress self)) \/
  saved (effects r) = [progress (coach r)].
Proof.
  cbv zeta. unfold handle_command; cbv zeta.
  branches; simpl; auto.
Qed.

Lemma main_loop_current_lesson (inputs : list input) (self : SQLCoach) (db : DB) :
  let result := main_loop execute_sql inputs self db in
  current_lesson (progress (fst (fst result)))
  = current_lesson (default (progress self) (last (saved (snd result)))).
Proof.
  revert self db. induction inputs as [| i rest IH]; intros self db; simpl; [reflexivity |].
  destruct i as [line | |]; simpl; [| reflexivity | reflexivity].
  pose proof (handle_saved_cases line self db) as Hc. cbv zeta in Hc.
  destruct (continue (handle line self db)).
  - specialize (IH (coach (handle line self db)) (database (handle line self db))).
    destruct (main_loop _ _ _ _) as [[self' db'] out]. simpl in *.
    rewrite IH, saved_app, last_app.
    destruct (last (saved out)) as [p |]; [reflexivity |]. simpl.
    destruct Hc as [[-> Hc] | ->]; [exact Hc | reflexivity].
  - simpl. destruct Hc as [[-> Hc] | ->]; [exact Hc | reflexivity].
Qed.

(** X20.  At the end of every run, the current lesson in memory is the
    current lesson of the last record written to the progress file, or
    the one that was loaded when nothing was written. *)
Theorem current_lesson_is_on_file
  (file : option Progress) (now : string) (inputs : list input) (db : DB) :
  let result := run execute_sql inputs (init file now) db in
  current_lesson (progress (fst (fst result)))
  = current_lesson (default (load_progress file now) (last (saved (snd result)))).
Proof.
  cbv zeta. unfold run.
  destruct (show_current_lesson (Row := Row) (init file now)) as [shown out] eqn:E.
  apply show_inv in E.
  pose proof (main_loop_current_lesson inputs shown db) as H.
  destruct (main_loop _ _ _ _) as [[self' db'] rest]. simpl in *.
  assert (progress shown = load_progress file now /\ saved out = []) as [Hp Ho].
  { destruct E as [(l & p & _ & -> & ->) | (_ & -> & ->)]; split; reflexivity. }
  rewrite H, Hp. simpl. rewrite saved_app, Ho. reflexivity.
Qed.

Lemma main_loop_until_interrupt (inputs : list input) (self : SQLCoach) (db : DB) :
  ~ In EOFError inputs ->
  let result := main_loop execute_sql (inputs ++ [KeyboardInterrupt]) self db in
  last (saved (snd result)) = Some (progress (fst (fst result))).
Proof.
  revert self db. induction inputs as [| i rest IH]; intros self db Hno; simpl; [reflexivity |].
  destruct i as [line | |]; simpl; [| reflexivity | exfalso; apply Hno; now left].
  assert (Hno' : ~ In EOFError rest) by (intros H; apply Hno; now right).
  pose proof (quit_outcome execute_sql line self db) as Hq. cbv zeta in Hq.
  destruct (continue (handle line self db)).
  - specialize (IH (coach (handle line self db)) (database (handle line self db)) Hno').
    destruct (main_loop _ _ _ _) as [[self' db'] out]. simpl in *.
    rewrite saved_app, last_app, IH. reflexivity.
  - destruct (Hq eq_refl) as (_ & -> & _ & ->). reflexivity.
Qed.

(** X21.  When the input does not end (no EOF) before the user quits or
    interrupts, the last record written to the progress file is the
    progress in memory at the end. *)
Theorem quit_or_interrupt_saves_all
  (file : option Progress) (now : string) (inputs : list input) (db : DB) :
  ~ In EOFError inputs ->
  let result := run execute_sql (inputs ++ [KeyboardInterrupt]) (init file now) db in
  last (saved (snd result)) = Some (progress (fst (fst result))).
Proof.
  intros Hno. cbv zeta. unfold run.
  destruct (show_current_lesson (Row := Row) (init file now)) as [shown out].
  pose proof (main_loop_until_interrupt inputs shown db Hno) as H.
  destruct (main_loop _ _ _ _) as [[self' db'] rest]. simpl in *.
  change (ClearScreen :: Print Banner :: Print Welcome :: out ++ rest)
    with ([ClearScreen; Print Banner; Print Welcome] ++ out ++ rest).
  rewrite !saved_app, !last_app, H. reflexivity.
Qed.

End Runs.

(** ** The next lesson, in any curriculum *)

Lemma index_of_None (x : string) (l : list string) :
  index_of x l = None <-> ~ In x l.
Proof.
  induction l as [| y l IH]; simpl; [tauto |].
  destruct (y =? x)%string eqn:E.
  - apply String.eqb_eq in E. split; [discriminate | tauto].
  - apply String.eqb_neq in E. destruct (index_of x l) as [i |]; simpl.
    + split; [discriminate |]. intros H. exfalso.
      assert (Hn : ~ In x l) by tauto. apply IH in Hn. discriminate.
    + split; [| reflexivity]. intros _ [H | H]; [congruence | now apply IH in H].
Qed.

Lemma index_of_nth (x : string) (l : list string) (i : nat) :
  NoDup l -> nth_error l i = Some x -> index_of x l = Some i.
Proof.
  intros Hnd. revert i. induction Hnd as [| y l Hy _ IH]; intros i; [destruct i; discriminate |].
  destruct i as [| i]; simpl.
  - intros [= ->]. now rewrite String.eqb_refl.
  - intros H. destruct (y =? x)%string eqn:E.
    + apply String.eqb_eq in E. subst y. exfalso. apply Hy.
      apply list_elem_of_In. exact (nth_error_In _ _ H).
    + now rewrite (IH _ H).
Qed.

(** X6.  [get_next_lesson_id], in any curriculum: an id that no lesson has
    has no next lesson; with lesson ids all different, the next of the
    id at position [i] of the declaration order is the id at position
    [i + 1], and there is none after the last. *)
Theorem next_lesson_id_in_spec (phases : list Phase) (current_id : string) :
  let ids := map lesson_id (all_lessons_of phases) in
  (~ In current_id ids -> next_lesson_id_in phases current_id = None) /\
  (NoDup ids -> forall i, nth_error ids i = Some current_id ->
   next_lesson_id_in phases current_id = nth_error ids (i + 1)).
Proof.
  cbv zeta. unfold next_lesson_id_in. split.
  - intros H. apply index_of_None in H. now rewrite H.
  - intros Hnd i Hi. rewrite (index_of_nth _ _ _ Hnd Hi).
    destruct (i + 1 <? _)%nat eqn:E; [reflexivity |].
    apply Nat.ltb_ge in E. symmetry. now apply nth_error_None.
Qed.

Lemma NoDup_lesson_ids : NoDup lesson_ids.
Proof. apply (bool_decide_unpack _). vm_compute. exact I. Qed.

Lemma NoDup_map_injective {A B : Type} (f : A -> B) (l : list A) (x y : A) :
  NoDup (map f l) -> In x l -> In y l -> f x = f y -> x = y.
Proof.
  induction l as [| a l IH]; simpl; [tauto |].
  intros Hnd Hx Hy E. apply NoDup_cons in Hnd as [Ha Hnd].
  destruct Hx as [-> | Hx], Hy as [-> | Hy]; auto.
  - exfalso. apply Ha. rewrite E. apply list_elem_of_In, in_map, Hy.
  - exfalso. apply Ha. rewrite <- E. apply list_elem_of_In, in_map, Hx.
Qed.

(** X5.  In a curriculum whose lesson ids are all different, looking up
    the id of a lesson returns that very lesson, with a phase that holds
    it. *)
Theorem get_lesson_in_round_trip (phases : list Phase) (l : Lesson) :
  NoDup (map lesson_id (all_lessons_of phases)) ->
  In l (all_lessons_of phases) ->
  exists p, get_lesson_in phases (lesson_id l) = Some (l, p) /\
            In p phases /\ In l (lessons p).
Proof.
  intros Hnd Hin.
  pose proof (get_lesson_in_sound phases (lesson_id l)) as S.
  destruct (get_lesson_in phases (lesson_id l)) as [[l' p'] |].
  - destruct S as (Hp & Hl & Hid).
    assert (l' = l) as ->.
    { apply (NoDup_map_injective lesson_id (all_lessons_of phases)); auto.
      unfold all_lessons_of. apply in_flat_map. eauto. }
    eauto.
  - exfalso. apply S. now apply in_map.
Qed.

Section Walks.

Context {Row DB : Type}.
Variable execute_sql : string -> DB -> exec_result Row * DB.

Local Abbreviation handle := (handle_command execute_sql).

(** X16.  On a first run, [k] times [skip] (for [k] up to the number of
    lessons) leave the first [k] lesson ids, in declaration order, as
    the completed lessons, and the lesson after them (the last one, once
    all are completed) as the current lesson; the progress file was
    written after each skip but the thirteenth. *)
Theorem skip_walks_the_curriculum (k : nat) (now : string) (db : DB) :
  k <= length lesson_ids ->
  let result := run execute_sql (repeat (Entered "skip") k) (init None now) db in
  let final := fst (fst result) in
  completed_lessons (progress final) = firstn k lesson_ids /\
  current_lesson (progress final) = nth (min k 12) lesson_ids EmptyString /\
  saved (snd result)
  = map (fun i => {| current_lesson := nth i lesson_ids EmptyString;
                     completed_lessons := firstn i lesson_ids;
                     hint_counts := ∅; started_at := now |})
        (seq 1 (min k 12)).
Proof.
  intros Hk. change (length lesson_ids) with 13 in Hk.
  do 14 (destruct k as [| k]; [vm_compute; auto |]).
  lia.
Qed.

End Walks.

(** ** The query of a line is not empty *)

Lemma lower_char_blank (c : ascii) : lower_char c = " "%char -> c = " "%char.
Proof. destruct c as [[] [] [] [] [] [] [] []]; intros H; vm_compute in H; congruence. Qed.

Lemma all_chars_lstrip_by (p : ascii -> bool) (s : string) :
  all_chars p (lstrip_by p s) = true -> all_chars p s = true.
Proof.
  induction s as [| c s IH]; simpl; [reflexivity |].
  destruct (p c) eqn:E; simpl; [auto |]. rewrite E. discriminate.
Qed.

Lemma strip_empty (s : string) : strip s = EmptyString <-> all_chars isspace s = true.
Proof.
  split; [| apply strip_blank].
  unfold strip. intros H. apply rstrip_by_empty in H. now apply all_chars_lstrip_by.
Qed.

Lemma ends_in_all_chars (p : ascii -> bool) (c : ascii) (s : string) :
  all_chars p (String c s) = true -> ends_in p (String c s) = true.
Proof.
  revert c. induction s as [| c' s IH]; intros c H.
  - simpl in *. now apply andb_true_iff in H as [H _].
  - change (ends_in p (String c (String c' s))) with (ends_in p (String c' s)).
    apply IH. simpl in H. now apply andb_true_iff in H as [_ H].
Qed.

Lemma lower_cons_inv (s : string) (a : ascii) (t : string) :
  lower s = String a t ->
  exists c s', s = String c s' /\ lower_char c = a /\ lower s' = t.
Proof. destruct s as [| c s']; simpl; [discriminate |]. intros [= <- <-]. eauto. Qed.

Lemma run_query_nonempty (cmd : string) :
  ends_in isspace cmd = false ->
  startswith "run " (lower cmd) = true ->
  truthy (strip (drop 4 cmd)) = true.
Proof.
  intros Hend H.
  apply startswith_cons in H as (x1 & E1 & H).
  apply startswith_cons in H as (x2 & E2 & H).
  apply startswith_cons in H as (x3 & E3 & H).
  apply startswith_cons in H as (x4 & E4 & _).
  apply lower_cons_inv in E1 as (c1 & s1 & -> & _ & E1). rewrite E2 in E1.
  apply lower_cons_inv in E1 as (c2 & s2 & -> & _ & E1). rewrite E3 in E1.
  apply lower_cons_inv in E1 as (c3 & s3 & -> & _ & E1). rewrite E4 in E1.
  apply lower_cons_inv in E1 as (c4 & rest & -> & Hc & _).
  apply lower_char_blank in Hc. subst c4.
  change (drop 4 (String c1 (String c2 (String c3 (String " "%char rest))))) with rest.
  destruct (strip rest) eqn:E; [| reflexivity].
  exfalso. apply strip_empty in E.
  change (ends_in isspace (String c1 (String c2 (String c3 (String " "%char rest)))))
    with (ends_in isspace (String " "%char rest)) in Hend.
  rewrite ends_in_all_chars in Hend; [discriminate |].
  simpl. exact E.
Qed.

(** ** The answer, however it is typed *)

Lemma same_text_refl (s : string) : same_text s s.
Proof.
  induction s as [| c s IH]; [constructor |].
  destruct (isspace c) eqn:E; [apply same_blank | apply same_char]; auto.
Qed.

Lemma isspace_same_case (c d : ascii) :
  lower_char c = lower_char d -> isspace d = isspace c.
Proof. intros H. now rewrite <- (isspace_lower_char d), <- H, isspace_lower_char. Qed.

Lemma same_text_empty_l (t : string) : same_text EmptyString t -> t = EmptyString.
Proof. now inversion 1. Qed.

Lemma same_text_empty_r (s : string) : same_text s EmptyString -> s = EmptyString.
Proof. now inversion 1. Qed.

Lemma same_text_starts (s t : string) :
  same_text s t -> starts_in isspace t = starts_in isspace s.
Proof.
  destruct 1 as [| c d s t Hc Hcd _ | c d s t Hc Hd _ | c d s t Hc Hd _]; simpl;
    [reflexivity | now apply isspace_same_case | congruence | congruence].
Qed.

Lemma same_text_ends (s t : string) :
  same_text s t -> ends_in isspace t = ends_in isspace s.
Proof.
  induction 1 as [| c d s t Hc Hcd H IH | c d s t Hc Hd H IH | c d s t Hc Hd H IH].
  - reflexivity.
  - simpl. destruct s as [| c' s'].
    + apply same_text_empty_l in H as ->. now apply isspace_same_case.
    + destruct t as [| d' t']; [apply same_text_empty_r in H; discriminate |]. exact IH.
  - simpl. destruct s as [| c' s'].
    + apply same_text_empty_l in H as ->. congruence.
    + destruct t as [| d' t']; [apply same_text_empty_r in H; discriminate |]. exact IH.
  - destruct t as [| d' t']; [apply same_text_empty_r in H; discriminate |].
    exact IH.
Qed.

Lemma rstrip_by_cons (p : ascii -> bool) (c : ascii) (s : string) :
  p c = false -> rstrip_by p (String c s) = String c (rstrip_by p s).
Proof. intros H. simpl. rewrite H. now destruct (rstrip_by p s). Qed.

(** Removing at the right end characters that are not whitespace, in
    either case, keeps a retyped text a retyped text. *)
Lemma same_text_rstrip_by (p : ascii -> bool) (s t : string) :
  (forall c, isspace c = true -> p c = false) ->
  (forall c d, lower_char c = lower_char d -> p c = p d) ->
  same_text s t -> same_text (rstrip_by p s) (rstrip_by p t).
Proof.
  intros Hsp Hcase.
  induction 1 as [| c d s t Hc Hcd H IH | c d s t Hc Hd H IH | c d s t Hc Hd H IH].
  - constructor.
  - simpl. rewrite <- (Hcase c d Hcd).
    destruct (rstrip_by p s) as [| a r] eqn:Es.
    + apply same_text_empty_l in IH as ->.
      destruct (p c); [constructor | apply same_char; [assumption | assumption | constructor]].
    + destruct (rstrip_by p t) as [| b r'] eqn:Et;
        [apply same_text_empty_r in IH; discriminate |].
      now apply same_char.
  - rewrite (rstrip_by_cons p c s (Hsp c Hc)), (rstrip_by_cons p d t (Hsp d Hd)).
    now apply same_blank.
  - rewrite (rstrip_by_cons p d t (Hsp d Hd)).
    rewrite (rstrip_by_cons p c s (Hsp c Hc)) in *.
    now apply same_wider.
Qed.

(** In lower case and with whitespace runs collapsed, a retyped text is
    the text. *)
Lemma same_text_sub_ws_runs (s t : string) :
  same_text s t ->
  forall in_run, sub_ws_runs in_run (lower t) = sub_ws_runs in_run (lower s).
Proof.
  induction 1 as [| c d s t Hc Hcd H IH | c d s t Hc Hd H IH | c d s t Hc Hd H IH];
    intros in_run.
  - reflexivity.
  - simpl. rewrite <- Hcd, isspace_lower_char, Hc. now rewrite IH.
  - simpl. rewrite !isspace_lower_char, Hc, Hd, IH. reflexivity.
  - specialize (IH true). simpl in IH |- *.
    rewrite !isspace_lower_char, Hc, Hd in *.
    rewrite IH. reflexivity.
Qed.

Lemma normalize_sql_lower_last (s : string) :
  normalize_sql s = collapse_whitespace (lower (rstrip_semicolons (strip s))).
Proof.
  unfold normalize_sql, rstrip_semicolons.
  rewrite strip_lower. f_equal. apply rstrip_by_lower.
  exact semicolon_lower_char.
Qed.

Lemma same_text_semicolon (c d : ascii) :
  lower_char c = lower_char d -> is_semicolon c = is_semicolon d.
Proof. intros H. now rewrite <- (semicolon_lower_char c), H, semicolon_lower_char. Qed.

Lemma space_not_semicolon (c : ascii) : isspace c = true -> is_semicolon c = false.
Proof. destruct c as [[] [] [] [] [] [] [] []]; try reflexivity; discriminate. Qed.

(** A text without whitespace around it, typed again: the retyped text
    has none around it either, and normalises as the text does. *)
Lemma same_text_normalize_sql (s t : string) :
  strip s = s -> same_text s t ->
  strip t = t /\ normalize_sql t = normalize_sql s.
Proof.
  intros Hs H.
  assert (Ht : strip t = t).
  { destruct (strip_shape s) as [Hb He]. rewrite Hs in Hb, He.
    apply strip_fixed.
    - now rewrite (same_text_starts _ _ H).
    - now rewrite (same_text_ends _ _ H). }
  split; [exact Ht |].
  rewrite !normalize_sql_lower_last, Hs, Ht.
  apply same_text_sub_ws_runs.
  apply same_text_rstrip_by; [exact space_not_semicolon | exact same_text_semicolon | exact H].
Qed.

Lemma rstrip_by_app_kept (p : ascii -> bool) (w tail : string) :
  rstrip_by p tail <> EmptyString ->
  rstrip_by p (w +:+ tail) = w +:+ rstrip_by p tail.
Proof.
  intros Hne. induction w as [| c w IH]; [reflexivity |].
  change (String c w +:+ tail) with (String c (w +:+ tail)).
  change (rstrip_by p (String c (w +:+ tail)))
    with (match rstrip_by p (w +:+ tail) with
          | EmptyString => if p c then EmptyString else String c EmptyString
          | r => String c r
          end).
  rewrite IH. destruct w; simpl; [| reflexivity].
  destruct (rstrip_by p tail); [congruence | reflexivity].
Qed.

Lemma lower_empty_inv (s : string) : lower s = EmptyString -> s = EmptyString.
Proof. destruct s; [reflexivity | discriminate]. Qed.

(** The word [run] and its blank, in any letter case. *)
Lemma run_word_inv (word : string) :
  lower word = "run " ->
  exists c1 c2 c3 c4,
    word = String c1 (String c2 (String c3 (String c4 EmptyString))) /\
    isspace c1 = false.
Proof.
  intros H.
  apply lower_cons_inv in H as (c1 & w1 & -> & E1 & H).
  apply lower_cons_inv in H as (c2 & w2 & -> & E2 & H).
  apply lower_cons_inv in H as (c3 & w3 & -> & E3 & H).
  apply lower_cons_inv in H as (c4 & w4 & -> & E4 & H).
  apply lower_empty_inv in H as ->.
  exists c1, c2, c3, c4. split; [reflexivity |].
  now rewrite <- isspace_lower_char, E1.
Qed.

(** What [handle_command] makes of a [run] line: the command word is
    found and the query is the text after it, without the whitespace. *)
Lemma run_line_parts (lead word pre sql post : string) :
  all_chars isspace lead = true -> lower word = "run " ->
  all_chars isspace pre = true -> all_chars isspace post = true ->
  strip sql = sql -> sql <> EmptyString ->
  let cmd := strip (lead +:+ word +:+ pre +:+ sql +:+ post) in
  startswith "run " (lower cmd) = true /\ strip (drop 4 cmd) = sql.
Proof.
  intros Hlead Hword Hpre Hpost Hsql Hne. cbv zeta.
  destruct (strip_shape sql) as [Hb He]. rewrite Hsql in Hb, He.
  assert (Htail : rstrip_by isspace (pre +:+ sql +:+ post) = pre +:+ sql).
  { rewrite rstrip_by_app_kept; rewrite (rstrip_by_app_all _ _ _ Hpost), (rstrip_by_fixed _ _ He);
      [reflexivity | exact Hne]. }
  assert (Hcmd : strip (lead +:+ word +:+ pre +:+ sql +:+ post) = word +:+ pre +:+ sql).
  { unfold strip. rewrite (lstrip_by_app_all _ _ _ Hlead).
    destruct (run_word_inv _ Hword) as (c1 & c2 & c3 & c4 & -> & Hc1).
    rewrite lstrip_by_fixed by exact Hc1.
    rewrite rstrip_by_app_kept; rewrite Htail; [reflexivity |].
    destruct pre; [exact Hne | discriminate]. }
  rewrite Hcmd. split.
  - rewrite lower_app, Hword. reflexivity.
  - destruct (run_word_inv _ Hword) as (c1 & c2 & c3 & c4 & -> & _).
    change (drop 4 (String c1 (String c2 (String c3 (String c4 EmptyString))) +:+ pre +:+ sql))
      with (pre +:+ sql).
    unfold strip. rewrite (lstrip_by_app_all _ _ _ Hpre). exact Hsql.
Qed.

(** The answers of the curriculum have no whitespace around them, and each
    lesson is found under its id. *)
Lemma answers_are_stripped (lesson : Lesson) :
  In lesson all_lessons ->
  strip (answer lesson) = answer lesson /\ answer lesson <> EmptyString /\
  fst <$> get_lesson_by_id (lesson_id lesson) = Some lesson.
Proof.
  intros Hin. unfold all_lessons, all_lessons_of in Hin; simpl in Hin.
  repeat (destruct Hin as [<- | Hin];
          [split; [vm_compute; reflexivity | split; [discriminate | vm_compute; reflexivity]] |]).
  destruct Hin.
Qed.

Section Matching.

Context {Row DB : Type}.
Variable execute_sql : string -> DB -> exec_result Row * DB.

Local Abbreviation handle := (handle_command execute_sql).

(** C1 (as amended).  For every lesson L of the curriculum that is the
    current lesson: a line made of the word [run] in any letter case, a
    blank, and the answer of L, literally or typed again with other
    letter case and with its whitespace runs replaced by longer or other
    whitespace runs, with any whitespace before the word, between the
    word and the query and after the query, prints the result and then
    the success box with the follow-up of L, whenever the executor
    reports no error for the query. *)
Theorem answer_run_is_matched
  (lesson : Lesson) (lead word pre sql post : string) (self : SQLCoach) (db : DB) :
  In lesson all_lessons ->
  current_lesson (progress self) = lesson_id lesson ->
  all_chars isspace lead = true -> lower word = "run " ->
  all_chars isspace pre = true -> all_chars isspace post = true ->
  same_text (answer lesson) sql ->
  let line := lead +:+ word +:+ pre +:+ sql +:+ post in
  let res := fst (execute_sql sql db) in
  is_error res = false ->
  effects (handle line self db) =
    [Print (Line "Query executed successfully!");
     Print (Table (columns_of res) (rows_of res));
     Print (SuccessBox (Matched (default "Try the next lesson!" (follow_up lesson))))].
Proof.
  intros Hin Hcur Hlead Hword Hpre Hpost Hsame line res Herr.
  destruct (answers_are_stripped lesson Hin) as (Hstrip & Hne & Hfound).
  destruct (same_text_normalize_sql _ _ Hstrip Hsame) as [Hsql Hnorm].
  assert (Hne' : sql <> EmptyString).
  { intros ->. apply same_text_empty_r in Hsame. contradiction. }
  destruct (run_line_parts lead word pre sql post Hlead Hword Hpre Hpost Hsql Hne')
    as [Hrun Hquery].
  fold line in Hrun, Hquery.
  pose proof (run_matching_query execute_sql line self db lesson Hrun) as H.
  rewrite Hcur, Hquery in H. exact (H Hfound Hnorm Herr).
Qed.

End Matching.

Lemma upper_char_same_case (c : ascii) : lower_char c = lower_char (upper_char c).
Proof. destruct c as [[] [] [] [] [] [] [] []]; reflexivity. Qed.

Lemma upper_char_space (c : ascii) : isspace (upper_char c) = isspace c.
Proof. destruct c as [[] [] [] [] [] [] [] []]; reflexivity. Qed.

(** Capitals and widened blanks are one way to type a text again. *)
Lemma same_text_upper_widen (s : string) : same_text s (upper (widen s)).
Proof.
  induction s as [| c s IH]; [constructor |].
  simpl. destruct (Ascii.eqb_spec c " "%char) as [-> | Hc].
  - simpl. apply same_wider; [reflexivity | reflexivity |].
    apply same_wider; [reflexivity | reflexivity |].
    apply same_blank; [reflexivity | reflexivity | exact IH].
  - simpl. destruct (isspace c) eqn:E.
    + apply same_blank; [exact E | now rewrite upper_char_space | exact IH].
    + apply same_char; [exact E | apply upper_char_same_case | exact IH].
Qed.

Section Explain.

Context {Row DB : Type}.
Variable execute_sql : string -> DB -> exec_result Row * DB.

Local Abbreviation handle := (handle_command execute_sql).

Lemma submitted_last_query (line : string) (self : SQLCoach) (db : DB) :
  let cmd := strip line in
  let r := handle line self db in
  (startswith "run " (lower cmd) = true -> last_query (coach r) = Some (strip (drop 4 cmd))) /\
  (forall q, classify cmd = CSql q -> last_query (coach r) = Some cmd).
Proof.
  cbv zeta. split.
  - intros Hrun. unfold handle_command; cbv zeta. rewrite (classify_run _ Hrun).
    destruct (execute_sql _ db) as [res db']. destruct (is_error res); reflexivity.
  - intros q Hq. destruct (classify_CSql_inv _ _ Hq) as (-> & _ & _).
    unfold handle_command; cbv zeta. rewrite Hq.
    destruct (execute_sql _ db) as [res db']. destruct (is_error res); reflexivity.
Qed.

(** X11.  After a query was submitted, with [run] or as a line taken as
    SQL, and whether it succeeded or failed, [explain] explains that
    query: it never asks to run a query first. *)
Theorem explain_after_query (line : string) (self : SQLCoach) (db : DB) :
  let cmd := strip line in
  let ran := handle line self db in
  let r := handle "explain" (coach ran) (database ran) in
  (startswith "run " (lower cmd) = true ->
   effects r = [Print (ExecutionOrder (explain_execution_order (strip (drop 4 cmd))))]) /\
  (forall q, classify cmd = CSql q ->
   effects r = [Print (ExecutionOrder (explain_execution_order cmd))]).
Proof.
  cbv zeta. destruct (submitted_last_query line self db) as [Hrun Hbare]. split.
  - intros H. specialize (Hrun H).
    unfold handle_command at 1; cbv zeta.
    change (classify (strip "explain")) with CExplain. cbv iota beta.
    rewrite Hrun, run_query_nonempty; [reflexivity | apply strip_shape | exact H].
  - intros q Hq. specialize (Hbare q Hq).
    unfold handle_command at 1; cbv zeta.
    change (classify (strip "explain")) with CExplain. cbv iota beta.
    rewrite Hbare.
    destruct (strip line) eqn:E; [discriminate Hq | reflexivity].
Qed.

(** X15.  From a lesson that resolves, [skip] followed by [lesson <id>]
    with the id of the lesson just left brings that lesson back as the
    current one, with both cursors at 0, marked as completed, and the
    progress file up to date. *)
Theorem skip_then_return
  (self : SQLCoach) (db : DB) (lesson : Lesson) (phase : Phase) :
  get_lesson_by_id (current_lesson (progress self)) = Some (lesson, phase) ->
  let skipped := handle "skip" self db in
  let back := handle ("lesson " +:+ lesson_id lesson) (coach skipped) (database skipped) in
  current_lesson (progress (coach back)) = lesson_id lesson /\
  current_hint (coach back) = 0 /\ current_step (coach back) = 0 /\
  In (lesson_id lesson) (completed_lessons (progress (coach back))) /\
  last (saved (effects back)) = Some (progress (coach back)).
Proof.
  intros Hfound. cbv zeta.
  assert (Hin : In lesson all_lessons).
  { pose proof (get_lesson_in_sound CURRICULUM (current_lesson (progress self))) as S.
    unfold get_lesson_by_id in Hfound. rewrite Hfound in S. destruct S as (Hp & Hl & _).
    unfold all_lessons, all_lessons_of. apply in_flat_map. eauto. }
  destruct (skip_effects execute_sql "skip" self db lesson phase eq_refl Hfound)
    as (_ & Hdone & _).
  rewrite <- (get_lesson_by_id_id _ _ _ Hfound) in Hdone.
  set (skipped := handle "skip" self db) in *.
  assert (Hgo : exists p,
             startswith "lesson " (lower (strip ("lesson " +:+ lesson_id lesson))) = true /\
             strip (drop 7 (strip ("lesson " +:+ lesson_id lesson))) = lesson_id lesson /\
             get_lesson_by_id (lesson_id lesson) = Some (lesson, p)).
  { clear - Hin. unfold all_lessons, all_lessons_of in Hin. simpl in Hin.
    repeat (destruct Hin as [<- | Hin]; [eexists; repeat split; vm_compute; reflexivity |]).
    destruct Hin. }
  destruct Hgo as (p & Hw & Hid & Hres).
  rewrite <- Hid in Hres.
  destruct (goto_known_lesson execute_sql _ (coach skipped) (database skipped) lesson p Hw Hres)
    as (Hc & _ & _ & He).
  rewrite Hc, He, Hid. simpl. repeat split; auto.
Qed.

End Explain.

(** ** The result table is aligned *)

Lemma spaces_length (n : nat) : String.length (spaces n) = n.
Proof. induction n; simpl; congruence. Qed.

Lemma append_length (a b : string) :
  String.length (a +:+ b) = String.length a + String.length b.
Proof. induction a as [| c a IH]; simpl; [reflexivity |]. now rewrite IH. Qed.

Lemma ljust_length (s : string) (width : nat) :
  String.length (ljust s width) = Nat.max (String.length s) width.
Proof. unfold ljust. rewrite append_length, spaces_length. lia. Qed.

Lemma upto_length (n : nat) (s : string) :
  String.length (upto n s) = Nat.min n (String.length s).
Proof.
  revert s. induction n as [| n IH]; intros [| c s]; simpl; try reflexivity.
  now rewrite IH.
Qed.

Lemma header_cell_width (width : nat) (col : string) :
  visible_width (header_cell width col) = width.
Proof.
  unfold visible_width, header_cell. cbn [printed codes].
  rewrite !append_length, ljust_length, upto_length. lia.
Qed.

Lemma fold_width_ge (m i : nat) (rows : list (list string)) (init : nat) :
  init <= fold_left (fun max_width row =>
                       match nth_error row i with
                       | Some cell => Nat.max max_width (String.length (upto m cell))
                       | None => max_width
                       end) rows init.
Proof.
  revert init. induction rows as [| row rows IH]; intros init; simpl; [lia |].
  etransitivity; [| apply IH]. destruct (nth_error row i); lia.
Qed.

Lemma fold_width_cell (m i : nat) (rows : list (list string)) (init : nat)
  (row : list string) (cell : string) :
  In row rows -> nth_error row i = Some cell ->
  String.length (upto m cell)
  <= fold_left (fun max_width row =>
                  match nth_error row i with
                  | Some cell => Nat.max max_width (String.length (upto m cell))
                  | None => max_width
                  end) rows init.
Proof.
  revert init. induction rows as [| r rows IH]; intros init; simpl; [tauto |].
  intros [-> | Hin] Hc.
  - rewrite Hc. etransitivity; [| apply fold_width_ge]. lia.
  - now apply IH.
Qed.

Lemma row_cell_width (m : nat) (rows : list (list string)) (color : string)
  (row : list string) (i : nat) (col : string) :
  4 <= m -> In row rows ->
  visible_width (row_cell color row i (column_width m rows i col)) = column_width m rows i col.
Proof.
  intros Hm Hin. unfold visible_width, row_cell. cbv zeta.
  destruct (_ =? "None")%string eqn:E; cbn [printed codes].
  - apply String.eqb_eq in E.
    destruct (nth_error row i) as [cell |] eqn:Hc; [subst cell | discriminate].
    pose proof (fold_width_cell m i rows (String.length col) row "None" Hin Hc) as Hge.
    rewrite upto_length in Hge. change (String.length "None") with 4 in Hge.
    rewrite ljust_length. unfold column_width. cbv zeta.
    change (String.length (C.DIM +:+ "NULL" +:+ C.RESET)) with 12.
    change (String.length C.DIM) with 4. change (String.length C.RESET) with 4.
    lia.
  - rewrite !append_length, ljust_length, upto_length. lia.
Qed.

Lemma Forall2_imap_same {A B : Type} (R : A -> B -> Prop) (f : nat -> A -> B) (l : list A) :
  (forall i x, l !! i = Some x -> R x (f i x)) -> Forall2 R l (imap f l).
Proof.
  revert f. induction l as [| a l IH]; intros f H; simpl; constructor.
  - apply (H 0). reflexivity.
  - apply IH. intros i x Hi. apply (H (S i)). exact Hi.
Qed.

(** X22.  For a result with rows and a column limit of 4 or more (it is
    20), [print_table] gives every column a width of at most the limit,
    one width per column and one line per row, and every cell of the
    header and of every row, colour codes left aside, is exactly as wide
    as its column, also for NULL, for cut values and for rows that are
    too short. *)
Theorem print_table_aligned
  (columns : list string) (rows : list (list string)) (max_col_width : nat) :
  4 <= max_col_width -> rows <> [] ->
  exists col_widths header body,
    print_table columns rows max_col_width = Grid col_widths header body (length rows) /\
    length col_widths = length columns /\
    Forall (fun w => w <= max_col_width) col_widths /\
    aligned col_widths header /\
    length body = length rows /\
    Forall (aligned col_widths) body.
Proof.
  intros Hm Hne. unfold print_table. destruct rows as [| r0 rs] eqn:Erows; [congruence |].
  rewrite <- Erows. clear Hne.
  eexists _, _, _. split; [reflexivity |].
  split; [apply length_imap |].
  split; [| split; [| split; [apply length_imap |]]].
  - apply Forall_forall. intros w Hw. apply list_elem_of_lookup in Hw as [i Hi].
    rewrite list_lookup_imap in Hi.
    destruct (columns !! i); simpl in Hi; [| discriminate].
    injection Hi as <-. unfold column_width. lia.
  - unfold aligned. apply Forall2_same_length_lookup. split; [now rewrite !length_imap |].
    intros i w c Hw Hc. rewrite list_lookup_imap in Hc.
    destruct (columns !! i) as [col |] eqn:Ecol; simpl in Hc; [| discriminate].
    injection Hc as <-.
    rewrite (nth_lookup_Some _ _ _ _ Hw). apply header_cell_width.
  - apply Forall_forall. intros line Hline.
    apply list_elem_of_lookup in Hline as [k Hk]. rewrite list_lookup_imap in Hk.
    destruct (rows !! k) as [row |] eqn:Erow; simpl in Hk; [| discriminate].
    injection Hk as <-.
    apply Forall2_imap_same. intros i w Hw.
    rewrite list_lookup_imap in Hw.
    destruct (columns !! i) as [col |]; simpl in Hw; [| discriminate].
    injection Hw as <-.
    apply row_cell_width; [exact Hm |].
    apply list_elem_of_In, list_elem_of_lookup. eauto.
Qed.

(** ** The further properties on examples *)

(** On the first lesson: [rUn] after a blank, then the answer in capitals
    with every blank widened to a blank, a tab and a blank, and blanks
    around it. *)
Lemma answer_run_is_matched_witness :
  let sql := upper (widen (answer lesson_1_1)) in
  let line := " " +:+ "rUn " +:+ "  " +:+ sql +:+ "   " in
  In lesson_1_1 all_lessons /\
  current_lesson (progress Demo.fresh) = lesson_id lesson_1_1 /\
  same_text (answer lesson_1_1) sql /\
  String.length (answer lesson_1_1) = 54 /\ String.length sql = 62 /\
  fst (Demo.execute_sql sql Demo.seeded) = ExecOk [] [] /\
  effects (demo line Demo.fresh Demo.seeded) =
    [Print (Line "Query executed successfully!");
     Print (Table (Some []) (Some []));
     Print (SuccessBox (Matched "Try: Show only SEARCH type campaigns (you'll need WHERE)"))].
Proof.
  assert (Hin : In lesson_1_1 all_lessons) by (left; reflexivity).
  pose proof (same_text_upper_widen (answer lesson_1_1)) as Hsame.
  split; [exact Hin |]. split; [reflexivity |]. split; [exact Hsame |].
  split; [reflexivity |]. split; [reflexivity |]. split; [reflexivity |].
  exact (answer_run_is_matched Demo.execute_sql lesson_1_1
           " " "rUn " "  " (upper (widen (answer lesson_1_1))) "   "
           Demo.fresh Demo.seeded
           Hin eq_refl eq_refl eq_refl eq_refl eq_refl Hsame eq_refl).
Defined.

Lemma normalize_sql_idempotent_iff_witness :
  normalize_sql (normalize_sql "SELECT  a FROM t;") = normalize_sql "SELECT  a FROM t;" /\
  ends_in is_blank (normalize_sql "SELECT a FROM t ;") = true.
Proof.
  split.
  - apply (normalize_sql_idempotent_iff "SELECT  a FROM t;"). reflexivity.
  - destruct (ends_in is_blank (normalize_sql "SELECT a FROM t ;")) eqn:E; [reflexivity |].
    apply (normalize_sql_idempotent_iff "SELECT a FROM t ;") in E.
    vm_compute in E. discriminate E.
Defined.

Lemma normalize_sql_ignores_padding_and_case_witness :
  normalize_sql ("  " +:+ "Select A  From T;" +:+ " ") = normalize_sql "SELECT a  FROM t;".
Proof.
  apply (normalize_sql_ignores_padding_and_case "  " "Select A  From T;" " " "SELECT a  FROM t;");
    reflexivity.
Defined.

Lemma get_lesson_in_round_trip_witness :
  In lesson_2_3 (all_lessons_of CURRICULUM) /\
  exists p, get_lesson_in CURRICULUM "2.3" = Some (lesson_2_3, p) /\
            In p CURRICULUM /\ In lesson_2_3 (lessons p).
Proof.
  assert (Hin : In lesson_2_3 (all_lessons_of CURRICULUM)) by (simpl; auto 10).
  split; [exact Hin |].
  exact (get_lesson_in_round_trip CURRICULUM lesson_2_3 NoDup_lesson_ids Hin).
Defined.

Lemma next_lesson_id_in_spec_witness :
  next_lesson_id_in CURRICULUM "1.4" = Some "2.1" /\
  next_lesson_id_in CURRICULUM "4.3" = None /\
  next_lesson_id_in CURRICULUM "7.7" = None.
Proof.
  destruct (next_lesson_id_in_spec CURRICULUM "1.4") as [_ H14].
  destruct (next_lesson_id_in_spec CURRICULUM "4.3") as [_ H43].
  destruct (next_lesson_id_in_spec CURRICULUM "7.7") as [H77 _].
  split; [exact (H14 NoDup_lesson_ids 3 eq_refl) |].
  split; [exact (H43 NoDup_lesson_ids 12 eq_refl) |].
  apply H77. vm_compute. intuition discriminate.
Defined.

Lemma goto_lesson_witness :
  let there := demo " Lesson  2.1" Demo.fresh Demo.seeded in
  let nowhere := demo "lesson 9.9" Demo.fresh Demo.seeded in
  current_lesson (progress (coach there)) = "2.1" /\
  saved (effects there) = [progress (coach there)] /\
  nowhere = proceed Demo.fresh Demo.seeded
              [Print (ErrorBox "Lesson '9.9' not found. Use format like '1.2' or '3.1'")].
Proof.
  cbv zeta.
  pose proof (goto_lesson Demo.execute_sql " Lesson  2.1" Demo.fresh Demo.seeded eq_refl) as H1.
  pose proof (goto_lesson Demo.execute_sql "lesson 9.9" Demo.fresh Demo.seeded eq_refl) as H2.
  cbv zeta in H1, H2.
  change (get_lesson_by_id (strip (drop 7 (strip " Lesson  2.1"))))
    with (Some (lesson_2_1, phase_2)) in H1.
  change (get_lesson_by_id (strip (drop 7 (strip "lesson 9.9"))))
    with (@None (Lesson * Phase)) in H2.
  destruct H1 as (Hc & _ & _ & He).
  split; [rewrite Hc; reflexivity |].
  split; [rewrite He, Hc; reflexivity | exact H2].
Defined.


Lemma blank_line_is_ignored_witness :
  demo "   " Demo.at_last_lesson Demo.seeded = proceed Demo.at_last_lesson Demo.seeded [].
Proof. apply (blank_line_is_ignored Demo.execute_sql "   "). reflexivity. Defined.

Lemma executor_only_for_queries_witness :
  let r := demo "drop everything" Demo.fresh Demo.seeded in
  database r = Demo.seeded /\ last_query (coach r) = None.
Proof.
  apply (executor_only_for_queries Demo.execute_sql "drop everything" Demo.fresh Demo.seeded);
    reflexivity.
Defined.

Lemma explain_after_query_witness :
  let ran := demo "run  SELECT a FROM nothing LIMIT 1 " Demo.fresh Demo.seeded in
  is_error (fst (Demo.execute_sql "SELECT a FROM nothing LIMIT 1" Demo.seeded)) = true /\
  effects (demo "explain" (coach ran) (database ran))
  = [Print (ExecutionOrder [(1, FROM); (2, SELECT); (3, LIMIT)])].
Proof.
  cbv zeta. split; [reflexivity |].
  destruct (explain_after_query Demo.execute_sql "run  SELECT a FROM nothing LIMIT 1 "
              Demo.fresh Demo.seeded) as [H _].
  exact (H eq_refl).
Defined.

Lemma hints_come_in_order_witness :
  main_loop Demo.execute_sql (repeat (Entered "Hint") 5) Demo.fresh Demo.seeded =
    (set_current_hint Demo.fresh 3, Demo.seeded,
     [Print (HintBox 1 3 "You need SELECT and FROM - two keywords");
      Print (HintBox 2 3 "The columns you want are: campaign_name, bidding_strategy");
      Print (HintBox 3 3 "The table is: campaigns");
      Print (Line "No more hints! Type 'answer' to see the solution.");
      Print (Line "No more hints! Type 'answer' to see the solution.")]).
Proof.
  exact (hints_come_in_order Demo.execute_sql "Hint" 5 Demo.fresh Demo.seeded
           lesson_1_1 phase_1 (or_introl eq_refl) eq_refl (le_0_n _)).
Defined.

Lemma steps_come_in_order_witness :
  main_loop Demo.execute_sql (repeat (Entered "next") 4) Demo.fresh Demo.seeded =
    (set_current_step Demo.fresh 3, Demo.seeded,
     [Print (NextStepBox 1 3 "SELECT");
      Print (NextStepBox 2 3 "SELECT campaign_name, bidding_strategy");
      Print (NextStepBox 3 3 "SELECT campaign_name, bidding_strategy FROM campaigns;");
      Print (Line "No more steps! Here's the full solution:");
      Print (AnswerBox "SELECT campaign_name, bidding_strategy FROM campaigns;")]).
Proof.
  exact (steps_come_in_order Demo.execute_sql "next" 4 Demo.fresh Demo.seeded
           lesson_1_1 phase_1 eq_refl eq_refl (le_0_n _)).
Defined.

Lemma cursors_within_lesson_witness :
  let hinted := coach (demo "hint" (coach (demo "next" Demo.fresh Demo.seeded)) Demo.seeded) in
  current_hint hinted = 1 /\ current_step hinted = 1 /\
  current_hint hinted <= length (hints lesson_1_1) /\
  current_step hinted <= length (solution_steps lesson_1_1).
Proof.
  cbv zeta. split; [reflexivity |]. split; [reflexivity |].
  apply (cursors_within_lesson Demo.execute_sql _ lesson_1_1 phase_1).
  - apply reach_step, reach_step, reach_init.
  - reflexivity.
Defined.

Lemma skip_then_return_witness :
  let hinted := coach (demo "hint" Demo.fresh Demo.seeded) in
  let skipped := demo "skip" hinted Demo.seeded in
  let back := demo "lesson 1.1" (coach skipped) (database skipped) in
  current_hint hinted = 1 /\
  current_lesson (progress (coach skipped)) = "1.2" /\
  current_lesson (progress (coach back)) = "1.1" /\
  current_hint (coach back) = 0 /\ current_step (coach back) = 0 /\
  In "1.1" (completed_lessons (progress (coach back))).
Proof.
  cbv zeta. split; [reflexivity |]. split; [reflexivity |].
  destruct (skip_then_return Demo.execute_sql (coach (demo "hint" Demo.fresh Demo.seeded))
              Demo.seeded lesson_1_1 phase_1 eq_refl) as (H1 & H2 & H3 & H4 & _).
  split; [exact H1 |]. split; [exact H2 |]. split; [exact H3 | exact H4].
Defined.

Lemma skip_walks_the_curriculum_witness :
  let result := run Demo.execute_sql (repeat (Entered "skip") 3)
                    (init None "2024-01-01T00:00:00") Demo.seeded in
  completed_lessons (progress (fst (fst result))) = ["1.1"; "1.2"; "1.3"] /\
  current_lesson (progress (fst (fst result))) = "1.4" /\
  length (saved (snd result)) = 3.
Proof.
  cbv zeta.
  destruct (skip_walks_the_curriculum Demo.execute_sql 3 "2024-01-01T00:00:00" Demo.seeded)
    as (H1 & H2 & H3).
  - vm_compute. lia.
  - split; [exact H1 |]. split; [exact H2 |]. rewrite H3. reflexivity.
Defined.

Lemma progress_bar_within_total_witness :
  Forall bar_within_total
    (snd (run Demo.execute_sql [Entered "skip"; Entered "progress"; Entered "cls"]
              (init None "2024-01-01T00:00:00") Demo.seeded)).
Proof.
  apply (progress_bar_within_total Demo.execute_sql None "2024-01-01T00:00:00").
  split; constructor.
Defined.

Lemma lesson_always_found_witness :
  Forall (fun e => e <> lesson_not_found)
    (snd (run Demo.execute_sql [Entered "skip"; Entered "lesson 9.9"; Entered "clear"]
              (init None "2024-01-01T00:00:00") Demo.seeded)).
Proof.
  apply (lesson_always_found Demo.execute_sql None "2024-01-01T00:00:00").
  vm_compute. discriminate.
Defined.

Lemma quit_or_interrupt_saves_all_witness :
  let result := run Demo.execute_sql
                    ([Entered "lesson 4.3"; Entered "skip"; Entered "quit"; Entered "hint"]
                     ++ [KeyboardInterrupt])
                    (init None "2024-01-01T00:00:00") Demo.seeded in
  completed_lessons (progress (fst (fst result))) = ["4.3"] /\
  last (saved (snd result)) = Some (progress (fst (fst result))).
Proof.
  cbv zeta. split; [reflexivity |].
  apply (quit_or_interrupt_saves_all Demo.execute_sql None "2024-01-01T00:00:00").
  simpl. intuition discriminate.
Defined.

Lemma print_table_aligned_witness :
  exists col_widths header body,
    print_table ["id"; "campaign_name"] [["1"; "None"]; ["2"; "Performance_Max_Campaign_Q1"]; ["3"]] 20
    = Grid col_widths header body 3 /\
    col_widths = [2; 20] /\
    Forall (aligned col_widths) body.
Proof.
  destruct (print_table_aligned ["id"; "campaign_name"]
              [["1"; "None"]; ["2"; "Performance_Max_Campaign_Q1"]; ["3"]] 20)
    as (w & h & b & E & _ & _ & _ & _ & Hb).
  - lia.
  - discriminate.
  - exists w, h, b. split; [exact E |]. split; [| exact Hb].
    vm_compute in E. injection E as E _ _. symmetry. exact E.
Defined.
